(** * vulkan_minimal_compute: the host program [src/main.cpp]

    A shallow embedding of the host side of the Mandelbrot compute demo.
    The Vulkan driver, the clock and the build configuration are the
    environment ([Env]); the program is a state-and-error computation
    ([M]) over a [World] that holds the [ComputeApplication] object and
    the trace of calls the program has issued. *)

From Stdlib Require Import ZArith List String Bool Lia QArith Qround.
Import ListNotations.
Open Scope string_scope.
Open Scope list_scope.
Open Scope Z_scope.

(** ** Constants and types of <vulkan/vulkan.h> used by the program *)

Module Vk.

Definition VkResult := Z.
Definition VK_SUCCESS : VkResult := 0.
Definition VK_ERROR_OUT_OF_HOST_MEMORY : VkResult := -1.
Definition VK_ERROR_OUT_OF_DEVICE_MEMORY : VkResult := -2.
Definition VK_ERROR_MEMORY_MAP_FAILED : VkResult := -5.

Inductive VkStructureType :=
| VK_STRUCTURE_TYPE_BUFFER_CREATE_INFO
| VK_STRUCTURE_TYPE_MEMORY_ALLOCATE_INFO
| VK_STRUCTURE_TYPE_DESCRIPTOR_SET_LAYOUT_CREATE_INFO
| VK_STRUCTURE_TYPE_DESCRIPTOR_POOL_CREATE_INFO
| VK_STRUCTURE_TYPE_DESCRIPTOR_SET_ALLOCATE_INFO
| VK_STRUCTURE_TYPE_WRITE_DESCRIPTOR_SET.

Inductive VkDescriptorType :=
| VK_DESCRIPTOR_TYPE_SAMPLER
| VK_DESCRIPTOR_TYPE_COMBINED_IMAGE_SAMPLER
| VK_DESCRIPTOR_TYPE_SAMPLED_IMAGE
| VK_DESCRIPTOR_TYPE_STORAGE_IMAGE
| VK_DESCRIPTOR_TYPE_UNIFORM_TEXEL_BUFFER
| VK_DESCRIPTOR_TYPE_STORAGE_TEXEL_BUFFER
| VK_DESCRIPTOR_TYPE_UNIFORM_BUFFER
| VK_DESCRIPTOR_TYPE_STORAGE_BUFFER
| VK_DESCRIPTOR_TYPE_UNIFORM_BUFFER_DYNAMIC
| VK_DESCRIPTOR_TYPE_STORAGE_BUFFER_DYNAMIC
| VK_DESCRIPTOR_TYPE_INPUT_ATTACHMENT.

(** What a shader may do with a descriptor of each type: the storage
    kinds admit loads and stores, every other kind is read-only. *)
Definition shader_may_write (t : VkDescriptorType) : bool :=
  match t with
  | VK_DESCRIPTOR_TYPE_STORAGE_IMAGE
  | VK_DESCRIPTOR_TYPE_STORAGE_TEXEL_BUFFER
  | VK_DESCRIPTOR_TYPE_STORAGE_BUFFER
  | VK_DESCRIPTOR_TYPE_STORAGE_BUFFER_DYNAMIC => true
  | _ => false
  end.

(** VkShaderStageFlagBits: bit positions of the pipeline stages. *)
Definition VK_SHADER_STAGE_VERTEX_BIT : Z := 0x01.
Definition VK_SHADER_STAGE_FRAGMENT_BIT : Z := 0x10.
Definition VK_SHADER_STAGE_COMPUTE_BIT : Z := 0x20.
Definition compute_stage_bit_index : Z := 5.

Definition VK_BUFFER_USAGE_UNIFORM_BUFFER_BIT : Z := 0x10.
Definition VK_BUFFER_USAGE_STORAGE_BUFFER_BIT : Z := 0x20.

Inductive VkSharingMode :=
| VK_SHARING_MODE_EXCLUSIVE
| VK_SHARING_MODE_CONCURRENT.

Definition VK_MEMORY_PROPERTY_DEVICE_LOCAL_BIT : Z := 0x01.
Definition VK_MEMORY_PROPERTY_HOST_VISIBLE_BIT : Z := 0x02.
Definition VK_MEMORY_PROPERTY_HOST_COHERENT_BIT : Z := 0x04.
Definition VK_MEMORY_PROPERTY_HOST_CACHED_BIT : Z := 0x08.

Record VkBufferCreateInfo := {
  bci_sType : VkStructureType;
  bci_size : Z;
  bci_usage : Z;
  bci_sharingMode : VkSharingMode
}.

Record VkMemoryRequirements := {
  mr_size : Z;
  mr_alignment : Z;
  mr_memoryTypeBits : Z
}.

Record VkMemoryAllocateInfo := {
  mai_sType : VkStructureType;
  mai_allocationSize : Z;
  mai_memoryTypeIndex : Z
}.

Record VkDescriptorSetLayoutBinding := {
  binding : Z;
  descriptorType : VkDescriptorType;
  descriptorCount : Z;
  stageFlags : Z
}.

Record VkDescriptorSetLayoutCreateInfo := {
  lci_sType : VkStructureType;
  lci_bindingCount : Z;
  lci_pBindings : list VkDescriptorSetLayoutBinding
}.

Record VkDescriptorPoolSize := {
  ps_type : VkDescriptorType;
  ps_descriptorCount : Z
}.

Record VkDescriptorPoolCreateInfo := {
  pci_sType : VkStructureType;
  pci_maxSets : Z;
  pci_poolSizeCount : Z;
  pci_pPoolSizes : list VkDescriptorPoolSize
}.

Record VkDescriptorSetAllocateInfo := {
  sai_sType : VkStructureType;
  sai_descriptorPool : Z;
  sai_descriptorSetCount : Z;
  sai_pSetLayouts : list Z
}.

Record VkDescriptorBufferInfo := {
  bi_buffer : Z;
  bi_offset : Z;
  bi_range : Z
}.

Record VkWriteDescriptorSet := {
  wds_sType : VkStructureType;
  wds_dstSet : Z;
  wds_dstBinding : Z;
  wds_dstArrayElement : Z;
  wds_descriptorType : VkDescriptorType;
  wds_descriptorCount : Z;
  wds_pBufferInfo : VkDescriptorBufferInfo
}.

End Vk.
Export Vk.

(** ** Fixed-width integers *)

Definition to_uint32 (z : Z) : Z := z mod 2 ^ 32.
Definition to_size_t (z : Z) : Z := z mod 2 ^ 64.

(** The representation type of [high_resolution_clock::duration] is a signed
    64-bit count of ticks. *)
Definition is_int64 (z : Z) : Prop := - 2 ^ 63 <= z < 2 ^ 63.

(** Object representation of a [uint32_t] on the (little-endian) host. *)
Definition object_bytes_uint32 (v : Z) : list Z :=
  [ v mod 256; (v / 2 ^ 8) mod 256; (v / 2 ^ 16) mod 256; (v / 2 ^ 24) mod 256 ].


(** ** Compile-time constants (main.cpp:10-12) *)

Definition WIDTH : Z := 3200.
Definition HEIGHT : Z := 2400.
Definition WORKGROUP_SIZE : Z := 32.

Definition sizeof_float : Z := 4.
Definition sizeof_uint32_t : Z := 4.

(** [struct Pixel { float r, g, b, a; }] (main.cpp:37-39). *)
Module Pixel.
Inductive member := r | g | b | a.
Definition members : list member := [r; g; b; a].
End Pixel.
Definition sizeof_Pixel : Z := Z.of_nat (List.length Pixel.members) * sizeof_float.

(** <cstdlib> *)
Definition EXIT_SUCCESS : Z := 0.
Definition EXIT_FAILURE : Z := 1.

(** ** Exceptions *)

Inductive ExnClass :=
| std_exception
| std_runtime_error
| std_range_error
| std_overflow_error
| std_underflow_error
| std_system_error
| std_logic_error
| std_invalid_argument
| std_domain_error
| std_length_error
| std_out_of_range
| std_bad_alloc
| non_std_type.

Definition ExnClass_eqb (x y : ExnClass) : bool :=
  match x, y with
  | std_exception, std_exception
  | std_runtime_error, std_runtime_error
  | std_range_error, std_range_error
  | std_overflow_error, std_overflow_error
  | std_underflow_error, std_underflow_error
  | std_system_error, std_system_error
  | std_logic_error, std_logic_error
  | std_invalid_argument, std_invalid_argument
  | std_domain_error, std_domain_error
  | std_length_error, std_length_error
  | std_out_of_range, std_out_of_range
  | std_bad_alloc, std_bad_alloc
  | non_std_type, non_std_type => true
  | _, _ => false
  end.

(** The direct public base class in <stdexcept>. *)
Definition base_class (c : ExnClass) : option ExnClass :=
  match c with
  | std_exception | non_std_type => None
  | std_runtime_error | std_logic_error | std_bad_alloc => Some std_exception
  | std_range_error | std_overflow_error | std_underflow_error
  | std_system_error => Some std_runtime_error
  | std_invalid_argument | std_domain_error | std_length_error
  | std_out_of_range => Some std_logic_error
  end.

(** [is_a c target]: an object of dynamic type [c] binds to a handler
    [catch (const target&)]. The hierarchy has depth 3. *)
Fixpoint is_a_fuel (fuel : nat) (c target : ExnClass) : bool :=
  ExnClass_eqb c target ||
  match fuel with
  | O => false
  | S fuel' =>
      match base_class c with
      | Some b => is_a_fuel fuel' b target
      | None => false
      end
  end.

Definition is_a (c target : ExnClass) : bool := is_a_fuel 3 c target.

Record Exception := {
  dynamic_type : ExnClass;
  what : string
}.

(** ** Calls the program issues *)

Inductive VkCall :=
(* calls made by the methods shown in main.cpp *)
| vkCreateBuffer (device : Z) (info : VkBufferCreateInfo)
| vkGetBufferMemoryRequirements (device buffer : Z)
| vkAllocateMemory (device : Z) (info : VkMemoryAllocateInfo)
| vkBindBufferMemory (device buffer memory offset : Z)
| vkCreateDescriptorSetLayout (device : Z) (info : VkDescriptorSetLayoutCreateInfo)
| vkCreateDescriptorPool (device : Z) (info : VkDescriptorPoolCreateInfo)
| vkAllocateDescriptorSets (device : Z) (info : VkDescriptorSetAllocateInfo)
| vkUpdateDescriptorSets (device : Z) (writes : list VkWriteDescriptorSet) (copyCount : Z)
| vkMapMemory (device memory offset size flags : Z)
| vkUnmapMemory (device memory : Z)
(* calls of the methods that main.cpp leaves out *)
| vkCreateInstance (validation : bool)
| vkEnumeratePhysicalDevices
| vkCreateDevice
| vkGetDeviceQueue
| vkCreateShaderModule
| vkCreatePipelineLayout (setLayout : Z)
| vkCreateComputePipelines
| vkCreateCommandPool
| vkAllocateCommandBuffers
| vkBeginCommandBuffer (oneTimeSubmit : bool)
| vkCmdBindPipeline
| vkCmdBindDescriptorSets (set : Z)
| vkCmdDispatch (groupCountX groupCountY groupCountZ : Z)
| vkEndCommandBuffer
| vkQueueSubmit
| vkQueueWaitIdle
| vkDestroy (what_ : string) (handle : Z)
| vkFreeMemory (memory : Z).

Inductive PrintfArg :=
| PInt (z : Z)
| PStr (s : string).

Inductive Event :=
| EvClockNow (count : Z)
| EvVk (c : VkCall) (res : option VkResult)
| EvMemcpy (dst : Z) (bytes : list Z)
| EvPrintf (fmt : string) (args : list PrintfArg)
| EvAssertFailed (expr file : string) (line : Z)
| EvEncodePng (width height : Z).

(** ** The application object (main.cpp:35-63) *)

Record ComputeApplication := {
  instance : Z;
  debugReportCallback : Z;
  physicalDevice : Z;
  device : Z;
  pipeline : Z;
  pipelineLayout : Z;
  computeShaderModule : Z;
  commandPool : Z;
  commandBuffer : Z;
  descriptorPool : Z;
  descriptorSet : Z;
  descriptorSetLayout : Z;
  buffer : Z;
  bufferMemory : Z;
  bufferSize : Z;
  seedBuffer : Z;
  seedBufferMemory : Z;
  seedBufferSize : Z;
  enabledLayers : list string;
  queue : Z;
  queueFamilyIndex : Z
}.

(** The members a method can assign. *)
Inductive Member :=
| m_instance | m_physicalDevice | m_device | m_pipeline | m_pipelineLayout
| m_computeShaderModule | m_commandPool | m_commandBuffer
| m_descriptorPool | m_descriptorSet | m_descriptorSetLayout
| m_buffer | m_bufferMemory | m_bufferSize
| m_seedBuffer | m_seedBufferMemory | m_queue.

Definition assign (m : Member) (v : Z) (o : ComputeApplication) : ComputeApplication :=
  let pick (m' : Member) (old : Z) : Z :=
    match m, m' with
    | m_instance, m_instance | m_physicalDevice, m_physicalDevice
    | m_device, m_device | m_pipeline, m_pipeline
    | m_pipelineLayout, m_pipelineLayout
    | m_computeShaderModule, m_computeShaderModule
    | m_commandPool, m_commandPool | m_commandBuffer, m_commandBuffer
    | m_descriptorPool, m_descriptorPool | m_descriptorSet, m_descriptorSet
    | m_descriptorSetLayout, m_descriptorSetLayout
    | m_buffer, m_buffer | m_bufferMemory, m_bufferMemory
    | m_bufferSize, m_bufferSize | m_seedBuffer, m_seedBuffer
    | m_seedBufferMemory, m_seedBufferMemory | m_queue, m_queue => v
    | _, _ => old
    end in
  {| instance := pick m_instance (instance o);
     debugReportCallback := debugReportCallback o;
     physicalDevice := pick m_physicalDevice (physicalDevice o);
     device := pick m_device (device o);
     pipeline := pick m_pipeline (pipeline o);
     pipelineLayout := pick m_pipelineLayout (pipelineLayout o);
     computeShaderModule := pick m_computeShaderModule (computeShaderModule o);
     commandPool := pick m_commandPool (commandPool o);
     commandBuffer := pick m_commandBuffer (commandBuffer o);
     descriptorPool := pick m_descriptorPool (descriptorPool o);
     descriptorSet := pick m_descriptorSet (descriptorSet o);
     descriptorSetLayout := pick m_descriptorSetLayout (descriptorSetLayout o);
     buffer := pick m_buffer (buffer o);
     bufferMemory := pick m_bufferMemory (bufferMemory o);
     bufferSize := pick m_bufferSize (bufferSize o);
     seedBuffer := pick m_seedBuffer (seedBuffer o);
     seedBufferMemory := pick m_seedBufferMemory (seedBufferMemory o);
     seedBufferSize := seedBufferSize o;
     enabledLayers := enabledLayers o;
     queue := pick m_queue (queue o);
     queueFamilyIndex := queueFamilyIndex o |}.

(** [ComputeApplication app;] - the only member with an initialiser is
    [seedBufferSize = sizeof(uint32_t)]; the handles are written by the
    driver before the program reads them. *)
Definition ComputeApplication_new : ComputeApplication :=
  {| instance := 0; debugReportCallback := 0; physicalDevice := 0; device := 0;
     pipeline := 0; pipelineLayout := 0; computeShaderModule := 0;
     commandPool := 0; commandBuffer := 0; descriptorPool := 0;
     descriptorSet := 0; descriptorSetLayout := 0; buffer := 0;
     bufferMemory := 0; bufferSize := 0; seedBuffer := 0;
     seedBufferMemory := 0; seedBufferSize := sizeof_uint32_t;
     enabledLayers := []; queue := 0; queueFamilyIndex := 0 |}.

(** ** Environment, world and the computation type *)

Record Env := {
  NDEBUG : bool;                       (* built with -DNDEBUG *)
  FILE__ : string;                     (* __FILE__ *)
  clock_count : nat -> Z;              (* count() of the n-th clock reading *)
  vk_result : nat -> VkResult;         (* status of the n-th driver call *)
  vk_out : nat -> Z;                   (* handle/pointer it writes back *)
  vk_memreq : nat -> VkMemoryRequirements;
  memoryTypes : list Z;                (* propertyFlags of each memory type *)
  host_writable : Z -> Z -> bool;      (* the n bytes at address p can be written *)
  memory_after_newSeed : nat -> Z      (* the bytes that follow [newSeed] in memory *)
}.

Record World := {
  app : ComputeApplication;
  trace : list Event;
  vk_calls : nat;
  clock_reads : nat
}.

Definition initial_world : World :=
  {| app := ComputeApplication_new; trace := []; vk_calls := 0%nat; clock_reads := 0%nat |}.

Inductive Outcome (A : Type) :=
| Ret (x : A) (w : World)
| Abort (w : World)
| Throw (e : Exception) (w : World)
| Fault (w : World).
Arguments Ret {A}.
Arguments Abort {A}.
Arguments Throw {A}.
Arguments Fault {A}.

Definition M (A : Type) : Type := Env -> World -> Outcome A.

Definition ret {A} (x : A) : M A := fun _ w => Ret x w.

Definition bind {A B} (m : M A) (k : A -> M B) : M B :=
  fun env w =>
    match m env w with
    | Ret x w' => k x env w'
    | Abort w' => Abort w'
    | Throw e w' => Throw e w'
    | Fault w' => Fault w'
    end.

Declare Scope prog_scope.
Delimit Scope prog_scope with prog.
Notation "x <- c1 ;; c2" := (bind c1 (fun x => c2))
  (at level 100, c1 at next level, right associativity) : prog_scope.
Notation "c1 ;; c2" := (bind c1 (fun _ => c2))
  (at level 100, right associativity) : prog_scope.
Open Scope prog_scope.

Definition this : M ComputeApplication := fun _ w => Ret (app w) w.

Definition emit (e : Event) : M unit :=
  fun _ w =>
    Ret tt {| app := app w; trace := trace w ++ [e];
              vk_calls := vk_calls w; clock_reads := clock_reads w |}.

Definition store (m : Member) (v : Z) : M unit :=
  fun _ w =>
    Ret tt {| app := assign m v (app w); trace := trace w;
              vk_calls := vk_calls w; clock_reads := clock_reads w |}.

Definition throw {A} (e : Exception) : M A := fun _ w => Throw e w.

Definition abort {A} : M A := fun _ w => Abort w.

(** A driver call that returns a [VkResult] and may write one handle. *)
Definition vk (c : VkCall) (out : option Member) : M VkResult :=
  fun env w =>
    let n := vk_calls w in
    let res := vk_result env n in
    Ret res
        {| app := match out with
                  | Some m => assign m (vk_out env n) (app w)
                  | None => app w
                  end;
           trace := trace w ++ [EvVk c (Some res)];
           vk_calls := S n; clock_reads := clock_reads w |}.

(** A driver call declared [void]. *)
Definition vk_void (c : VkCall) : M unit :=
  fun _ w =>
    Ret tt {| app := app w; trace := trace w ++ [EvVk c None];
              vk_calls := S (vk_calls w); clock_reads := clock_reads w |}.

Definition printf (fmt : string) (args : list PrintfArg) : M unit :=
  emit (EvPrintf fmt args).

(** <assert.h>: with NDEBUG the macro expands to nothing; otherwise a false
    condition reports the expression and calls abort(). *)
Definition assert (cond : bool) (expr : string) (line : Z) : M unit :=
  fun env w =>
    if NDEBUG env then Ret tt w
    else if cond then Ret tt w
    else bind (emit (EvAssertFailed expr (FILE__ env) line)) (fun _ => abort) env w.

(** main.cpp:14-18 *)
Definition enableValidationLayers (env : Env) : bool := negb (NDEBUG env).

(** main.cpp:21-29; [line] is the value of __LINE__ at the expansion. *)
Definition VK_CHECK_RESULT (line : Z) (f : M VkResult) : M unit :=
  res <- f ;;
  if negb (res =? VK_SUCCESS) then
    (fun env =>
       printf "Fatal: VkResult is %d in %s at line %d\n"
              [PInt res; PStr (FILE__ env); PInt line] env) ;;
    assert (res =? VK_SUCCESS) "res == VK_SUCCESS" line
  else ret tt.

(** main.cpp:31-33: the tick count of the clock, narrowed to [uint32_t]. *)
Definition generateSeed : M Z :=
  fun env w =>
    let count := clock_count env (clock_reads w) in
    Ret (to_uint32 count)
        {| app := app w; trace := trace w ++ [EvClockNow count];
           vk_calls := vk_calls w; clock_reads := S (clock_reads w) |}.

(** ** Selecting a memory type *)

(** Superset test on flag words, as C writes it: [(flags & wanted) == wanted]. *)
Definition has_all_flags (flags wanted : Z) : bool :=
  Z.land flags wanted =? wanted.

Definition memory_type_suits (typeBits properties : Z) (i : nat) (flags : Z) : bool :=
  Z.testbit typeBits (Z.of_nat i) && has_all_flags flags properties.

(** Modelled from the spec: the body of [findMemoryType] is missing from
    main.cpp, which only calls it (main.cpp:97-98).  Spec 4.2: "first
    index, in hardware-reported order, whose type bit is set AND whose
    property flags are a superset of the requested flags. Fails fatally if
    no matching type exists".  [findMemoryType_from i types] scans the
    table entries [i, i+1, ...]. *)
Fixpoint findMemoryType_from (i : nat) (types : list Z) (typeBits properties : Z)
  : option nat :=
  match types with
  | [] => None
  | flags :: rest =>
      if memory_type_suits typeBits properties i flags then Some i
      else findMemoryType_from (S i) rest typeBits properties
  end.

(** Modelled from the spec: [findMemoryType] over the memory types the
    physical device reports; the fatal failure ends the process. *)
Definition findMemoryType (typeBits properties : Z) : M Z :=
  fun env w =>
    match findMemoryType_from 0 (memoryTypes env) typeBits properties with
    | Some i => Ret (Z.of_nat i) w
    | None => Abort w
    end.

(** [vkGetBufferMemoryRequirements] fills the caller's structure. *)
Definition getBufferMemoryRequirements (dev buf : Z) : M VkMemoryRequirements :=
  fun env w =>
    Ret (vk_memreq env (vk_calls w))
        {| app := app w;
           trace := trace w ++ [EvVk (vkGetBufferMemoryRequirements dev buf) None];
           vk_calls := S (vk_calls w); clock_reads := clock_reads w |}.

(** ** Methods shown in main.cpp *)

(** main.cpp:82-102 *)
Definition createSeedBuffer : M unit :=
  o <- this ;;
  let bufferCreateInfo :=
    {| bci_sType := VK_STRUCTURE_TYPE_BUFFER_CREATE_INFO;
       bci_size := seedBufferSize o;
       bci_usage := VK_BUFFER_USAGE_UNIFORM_BUFFER_BIT;
       bci_sharingMode := VK_SHARING_MODE_EXCLUSIVE |} in
  VK_CHECK_RESULT 89 (vk (vkCreateBuffer (device o) bufferCreateInfo) (Some m_seedBuffer)) ;;
  o <- this ;;
  memRequirements <- getBufferMemoryRequirements (device o) (seedBuffer o) ;;
  memoryTypeIndex <-
    findMemoryType (mr_memoryTypeBits memRequirements)
                   (Z.lor VK_MEMORY_PROPERTY_HOST_VISIBLE_BIT
                          VK_MEMORY_PROPERTY_HOST_COHERENT_BIT) ;;
  let allocInfo :=
    {| mai_sType := VK_STRUCTURE_TYPE_MEMORY_ALLOCATE_INFO;
       mai_allocationSize := mr_size memRequirements;
       mai_memoryTypeIndex := memoryTypeIndex |} in
  o <- this ;;
  VK_CHECK_RESULT 100 (vk (vkAllocateMemory (device o) allocInfo) (Some m_seedBufferMemory)) ;;
  o <- this ;;
  VK_CHECK_RESULT 101
    (vk (vkBindBufferMemory (device o) (seedBuffer o) (seedBufferMemory o) 0) None).

(** main.cpp:105-114: the [bindings] array. *)
Definition layout_bindings : list VkDescriptorSetLayoutBinding :=
  [ {| binding := 0;
       descriptorType := VK_DESCRIPTOR_TYPE_STORAGE_BUFFER;
       descriptorCount := 1;
       stageFlags := VK_SHADER_STAGE_COMPUTE_BIT |};
    {| binding := 1;
       descriptorType := VK_DESCRIPTOR_TYPE_UNIFORM_BUFFER;
       descriptorCount := 1;
       stageFlags := VK_SHADER_STAGE_COMPUTE_BIT |} ].

(** main.cpp:104-122 *)
Definition createDescriptorSetLayout : M unit :=
  o <- this ;;
  let bindings := layout_bindings in
  let layoutInfo :=
    {| lci_sType := VK_STRUCTURE_TYPE_DESCRIPTOR_SET_LAYOUT_CREATE_INFO;
       lci_bindingCount := 2;
       lci_pBindings := bindings |} in
  VK_CHECK_RESULT 121
    (vk (vkCreateDescriptorSetLayout (device o) layoutInfo) (Some m_descriptorSetLayout)).

(** main.cpp:157-173: the [descriptorWrites] array, from the object's
    members at that point. *)
Definition descriptorWrites (o : ComputeApplication) : list VkWriteDescriptorSet :=
  let bufferInfo :=
    {| bi_buffer := buffer o; bi_offset := 0; bi_range := bufferSize o |} in
  let seedBufferInfo :=
    {| bi_buffer := seedBuffer o; bi_offset := 0; bi_range := seedBufferSize o |} in
  [ {| wds_sType := VK_STRUCTURE_TYPE_WRITE_DESCRIPTOR_SET;
       wds_dstSet := descriptorSet o;
       wds_dstBinding := 0;
       wds_dstArrayElement := 0;
       wds_descriptorType := VK_DESCRIPTOR_TYPE_STORAGE_BUFFER;
       wds_descriptorCount := 1;
       wds_pBufferInfo := bufferInfo |};
    {| wds_sType := VK_STRUCTURE_TYPE_WRITE_DESCRIPTOR_SET;
       wds_dstSet := descriptorSet o;
       wds_dstBinding := 1;
       wds_dstArrayElement := 0;
       wds_descriptorType := VK_DESCRIPTOR_TYPE_UNIFORM_BUFFER;
       wds_descriptorCount := 1;
       wds_pBufferInfo := seedBufferInfo |} ].

(** main.cpp:124-176 *)
Definition createDescriptorSet : M unit :=
  o <- this ;;
  let poolSizes :=
    [ {| ps_type := VK_DESCRIPTOR_TYPE_STORAGE_BUFFER; ps_descriptorCount := 1 |};
      {| ps_type := VK_DESCRIPTOR_TYPE_UNIFORM_BUFFER; ps_descriptorCount := 1 |} ] in
  let poolInfo :=
    {| pci_sType := VK_STRUCTURE_TYPE_DESCRIPTOR_POOL_CREATE_INFO;
       pci_maxSets := 1;
       pci_poolSizeCount := 2;
       pci_pPoolSizes := poolSizes |} in
  VK_CHECK_RESULT 137 (vk (vkCreateDescriptorPool (device o) poolInfo) (Some m_descriptorPool)) ;;
  o <- this ;;
  let allocInfo :=
    {| sai_sType := VK_STRUCTURE_TYPE_DESCRIPTOR_SET_ALLOCATE_INFO;
       sai_descriptorPool := descriptorPool o;
       sai_descriptorSetCount := 1;
       sai_pSetLayouts := [descriptorSetLayout o] |} in
  VK_CHECK_RESULT 145 (vk (vkAllocateDescriptorSets (device o) allocInfo) (Some m_descriptorSet)) ;;
  o <- this ;;
  vk_void (vkUpdateDescriptorSets (device o) (descriptorWrites o) 0).

(** The [n] bytes that memcpy reads starting at [&newSeed]: the object
    representation of the seed and, past its 4 bytes, whatever follows the
    variable in memory. *)
Definition bytes_from_newSeed (env : Env) (value : Z) (n : nat) : list Z :=
  firstn n (object_bytes_uint32 value) ++ map (memory_after_newSeed env) (seq 0 (n - 4)).

(** [memcpy(dst, &value, n)] from a [uint32_t] object: [n] bytes are stored
    at [dst]; when that address cannot be written the process takes a
    memory fault (SIGSEGV) and nothing after the call runs. *)
Definition memcpy_uint32 (dst value n : Z) : M unit :=
  fun env w =>
    if host_writable env dst n
    then emit (EvMemcpy dst (bytes_from_newSeed env value (Z.to_nat n))) env w
    else Fault w.

(** [vkMapMemory]: the status is discarded by the caller (main.cpp:181);
    [data] receives what the driver wrote. *)
Definition mapMemory (dev memory offset size flags : Z) : M Z :=
  fun env w =>
    let n := vk_calls w in
    Ret (vk_out env n)
        {| app := app w;
           trace := trace w ++ [EvVk (vkMapMemory dev memory offset size flags)
                                     (Some (vk_result env n))];
           vk_calls := S n; clock_reads := clock_reads w |}.

(** main.cpp:179-183: the statements of [runCommandBuffer] that are shown. *)
Definition runCommandBuffer_upload : M unit :=
  newSeed <- generateSeed ;;
  o <- this ;;
  data <- mapMemory (device o) (seedBufferMemory o) 0 (seedBufferSize o) 0 ;;
  memcpy_uint32 data newSeed (seedBufferSize o) ;;
  vk_void (vkUnmapMemory (device o) (seedBufferMemory o)).

(** ** The methods main.cpp leaves out *)

(** "Other methods omitted for brevity" (main.cpp:188) and "Other command
    buffer operations" (main.cpp:185). *)
Record Omitted := {
  createInstance : M unit;
  findPhysicalDevice : M unit;
  createDevice : M unit;
  createBuffer : M unit;
  createComputePipeline : M unit;
  createCommandBuffer : M unit;
  runCommandBuffer_rest : M unit;
  saveRenderedImage : M unit;
  cleanup : M unit
}.

(** main.cpp:178-186 *)
Definition runCommandBuffer (om : Omitted) : M unit :=
  runCommandBuffer_upload ;;
  runCommandBuffer_rest om.

(** main.cpp:67 : [bufferSize = sizeof(Pixel) * WIDTH * HEIGHT], computed in
    [size_t] and stored in a [uint32_t]. *)
Definition bufferSize_value : Z :=
  to_uint32 (to_size_t (to_size_t (sizeof_Pixel * WIDTH) * HEIGHT)).

(** main.cpp:66-80 *)
Definition run (om : Omitted) : M unit :=
  store m_bufferSize bufferSize_value ;;
  createInstance om ;;
  findPhysicalDevice om ;;
  createDevice om ;;
  createBuffer om ;;
  createSeedBuffer ;;
  createDescriptorSetLayout ;;
  createDescriptorSet ;;
  createComputePipeline om ;;
  createCommandBuffer om ;;
  runCommandBuffer om ;;
  saveRenderedImage om ;;
  cleanup om.

(** ** main (main.cpp:191-200) *)

Definition try_catch {A} (body : M A) (handles : Exception -> bool)
    (handler : Exception -> M A) : M A :=
  fun env w =>
    match body env w with
    | Throw e w' => if handles e then handler e env w' else Throw e w'
    | other => other
    end.

(** [Some status]: a [return status;] executed inside the try statement. *)
Definition main_function (om : Omitted) : M Z :=
  returned <-
    try_catch (run om ;; ret None)
              (fun e => is_a (dynamic_type e) std_runtime_error)
              (fun e => printf "%s\n" [PStr (what e)] ;; ret (Some EXIT_FAILURE)) ;;
  match returned with
  | Some status => ret status
  | None => ret EXIT_SUCCESS
  end.

Inductive ProcessEnd :=
| Exited (status : Z) (w : World)      (* main returned *)
| Terminated (w : World)               (* abort() or std::terminate() *)
| Crashed (w : World).                 (* killed by a memory fault *)

Definition main (om : Omitted) (env : Env) : ProcessEnd :=
  match main_function om env initial_world with
  | Ret status w => Exited status w
  | Abort w => Terminated w
  | Throw _ w => Terminated w
  | Fault w => Crashed w
  end.

(** ** The omitted methods, from the specification *)

(** Modelled from the spec: the dispatch itself is missing from main.cpp.
    Spec 4.5: "a 2D workgroup count equal to ceil(width / workgroupSize)
    x ceil(height / workgroupSize)"; the ceiling is taken over the
    rationals. *)
Definition workgroupCount (extent : Z) : Z :=
  Qceiling (inject_Z extent / inject_Z WORKGROUP_SIZE).

(** Modelled from the spec: [createInstance], [findPhysicalDevice] and
    [createDevice] are missing from main.cpp.  Spec 4.1: a connection to
    one capable GPU and one compute queue, validation instrumentation only
    in a debug configuration, every setup call checked. *)
Definition createInstance_spec : M unit :=
  fun env =>
    VK_CHECK_RESULT 0 (vk (vkCreateInstance (enableValidationLayers env)) (Some m_instance)) env.

Definition findPhysicalDevice_spec : M unit :=
  VK_CHECK_RESULT 0 (vk vkEnumeratePhysicalDevices (Some m_physicalDevice)).

Definition createDevice_spec : M unit :=
  VK_CHECK_RESULT 0 (vk vkCreateDevice (Some m_device)) ;;
  _ <- vk vkGetDeviceQueue (Some m_queue) ;;
  ret tt.

(** Modelled from the spec: [createBuffer] is missing from main.cpp.
    Spec 4.2: "creates a buffer handle, queries its memory requirements,
    finds a memory type index ... (device-local for the large output
    buffer), allocates, and binds"; spec 3: "total buffer size = width x
    height x sizeof(Pixel)", which main.cpp:67 keeps in [bufferSize]. *)
Definition createBuffer_spec : M unit :=
  o <- this ;;
  let bufferCreateInfo :=
    {| bci_sType := VK_STRUCTURE_TYPE_BUFFER_CREATE_INFO;
       bci_size := bufferSize o;
       bci_usage := VK_BUFFER_USAGE_STORAGE_BUFFER_BIT;
       bci_sharingMode := VK_SHARING_MODE_EXCLUSIVE |} in
  VK_CHECK_RESULT 0 (vk (vkCreateBuffer (device o) bufferCreateInfo) (Some m_buffer)) ;;
  o <- this ;;
  memRequirements <- getBufferMemoryRequirements (device o) (buffer o) ;;
  memoryTypeIndex <-
    findMemoryType (mr_memoryTypeBits memRequirements) VK_MEMORY_PROPERTY_DEVICE_LOCAL_BIT ;;
  let allocInfo :=
    {| mai_sType := VK_STRUCTURE_TYPE_MEMORY_ALLOCATE_INFO;
       mai_allocationSize := mr_size memRequirements;
       mai_memoryTypeIndex := memoryTypeIndex |} in
  VK_CHECK_RESULT 0 (vk (vkAllocateMemory (device o) allocInfo) (Some m_bufferMemory)) ;;
  o <- this ;;
  VK_CHECK_RESULT 0 (vk (vkBindBufferMemory (device o) (buffer o) (bufferMemory o) 0) None).

(** Modelled from the spec: [createComputePipeline] is missing from
    main.cpp.  Spec 4.4: load the shader module and bind it to the
    declared resource layout. *)
Definition createComputePipeline_spec : M unit :=
  VK_CHECK_RESULT 0 (vk vkCreateShaderModule (Some m_computeShaderModule)) ;;
  o <- this ;;
  VK_CHECK_RESULT 0 (vk (vkCreatePipelineLayout (descriptorSetLayout o)) (Some m_pipelineLayout)) ;;
  VK_CHECK_RESULT 0 (vk vkCreateComputePipelines (Some m_pipeline)).

(** Modelled from the spec: [createCommandBuffer] is missing from
    main.cpp.  Spec 4.5, Idle->Recording: "open a one-shot command
    buffer". *)
Definition createCommandBuffer_spec : M unit :=
  VK_CHECK_RESULT 0 (vk vkCreateCommandPool (Some m_commandPool)) ;;
  VK_CHECK_RESULT 0 (vk vkAllocateCommandBuffers (Some m_commandBuffer)) ;;
  VK_CHECK_RESULT 0 (vk (vkBeginCommandBuffer true) None).

(** Modelled from the spec: the rest of [runCommandBuffer] is missing from
    main.cpp.  Spec 4.5: after the seed upload, "records a single dispatch
    call", "submit the command buffer to the queue", "block until the
    device reports completion". *)
Definition runCommandBuffer_rest_spec : M unit :=
  o <- this ;;
  vk_void vkCmdBindPipeline ;;
  vk_void (vkCmdBindDescriptorSets (descriptorSet o)) ;;
  vk_void (vkCmdDispatch (workgroupCount WIDTH) (workgroupCount HEIGHT) 1) ;;
  VK_CHECK_RESULT 0 (vk vkEndCommandBuffer None) ;;
  VK_CHECK_RESULT 0 (vk vkQueueSubmit None) ;;
  VK_CHECK_RESULT 0 (vk vkQueueWaitIdle None).

(** Modelled from the spec: [saveRenderedImage] is missing from main.cpp.
    Spec 4.6: map the output buffer, hand a width x height pixel array to
    the encoder. *)
Definition saveRenderedImage_spec : M unit :=
  o <- this ;;
  _ <- mapMemory (device o) (bufferMemory o) 0 (bufferSize o) 0 ;;
  emit (EvEncodePng WIDTH HEIGHT) ;;
  vk_void (vkUnmapMemory (device o) (bufferMemory o)).

(** Modelled from the spec: [cleanup] is missing from main.cpp.  Spec 3
    and 5: buffer and memory released as pairs, "pipeline before layout
    before device before instance". *)
Definition cleanup_spec : M unit :=
  o <- this ;;
  vk_void (vkFreeMemory (bufferMemory o)) ;;
  vk_void (vkDestroy "Buffer" (buffer o)) ;;
  vk_void (vkFreeMemory (seedBufferMemory o)) ;;
  vk_void (vkDestroy "Buffer" (seedBuffer o)) ;;
  vk_void (vkDestroy "ShaderModule" (computeShaderModule o)) ;;
  vk_void (vkDestroy "DescriptorPool" (descriptorPool o)) ;;
  vk_void (vkDestroy "DescriptorSetLayout" (descriptorSetLayout o)) ;;
  vk_void (vkDestroy "Pipeline" (pipeline o)) ;;
  vk_void (vkDestroy "PipelineLayout" (pipelineLayout o)) ;;
  vk_void (vkDestroy "CommandPool" (commandPool o)) ;;
  vk_void (vkDestroy "Device" (device o)) ;;
  vk_void (vkDestroy "Instance" (instance o)).

(** Modelled from the spec: the omitted methods together. *)
Definition omitted_spec : Omitted :=
  {| createInstance := createInstance_spec;
     findPhysicalDevice := findPhysicalDevice_spec;
     createDevice := createDevice_spec;
     createBuffer := createBuffer_spec;
     createComputePipeline := createComputePipeline_spec;
     createCommandBuffer := createCommandBuffer_spec;
     runCommandBuffer_rest := runCommandBuffer_rest_spec;
     saveRenderedImage := saveRenderedImage_spec;
     cleanup := cleanup_spec |}.

(** ** Reading a trace *)

(** The calls the properties below are about. *)
Inductive Mark :=
| MkCreateBuffer (size usage : Z)
| MkUpdateDescriptorSets (writes : nat)
| MkSeed
| MkMap (size : Z)
| MkCopy (bytes : nat)
| MkUnmap
| MkRecordDispatch
| MkSubmit
| MkWait.

Definition mark (e : Event) : option Mark :=
  match e with
  | EvClockNow _ => Some MkSeed
  | EvMemcpy _ bytes => Some (MkCopy (List.length bytes))
  | EvVk (vkCreateBuffer _ info) _ => Some (MkCreateBuffer (bci_size info) (bci_usage info))
  | EvVk (vkUpdateDescriptorSets _ writes _) _ =>
      Some (MkUpdateDescriptorSets (List.length writes))
  | EvVk (vkMapMemory _ _ _ size _) _ => Some (MkMap size)
  | EvVk (vkUnmapMemory _ _) _ => Some MkUnmap
  | EvVk (vkCmdDispatch _ _ _) _ => Some MkRecordDispatch
  | EvVk vkQueueSubmit _ => Some MkSubmit
  | EvVk vkQueueWaitIdle _ => Some MkWait
  | _ => None
  end.

Definition marks (t : list Event) : list Mark :=
  flat_map (fun e => match mark e with Some m => [m] | None => [] end) t.

Definition is_seed (m : Mark) : bool :=
  match m with MkSeed => true | _ => false end.

Definition is_update (m : Mark) : bool :=
  match m with MkUpdateDescriptorSets _ => true | _ => false end.

Definition is_dispatch_or_submit (m : Mark) : bool :=
  match m with MkRecordDispatch | MkSubmit => true | _ => false end.

Definition count_marks (p : Mark -> bool) (ms : list Mark) : nat :=
  List.length (filter p ms).

(** The object keeps the two sizes the constructor and main.cpp:67 gave it. *)
Definition sizes_set (o : ComputeApplication) : Prop :=
  seedBufferSize o = sizeof_uint32_t /\ bufferSize o = bufferSize_value.

(** [emits m ms]: whenever [m] returns, it has added exactly the marked
    calls [ms] to the trace and left the two sizes alone. *)
Definition emits {A} (m : M A) (ms : list Mark) : Prop :=
  forall env w x w',
    sizes_set (app w) ->
    m env w = Ret x w' ->
    marks (trace w') = marks (trace w) ++ ms /\ sizes_set (app w').

(** The marked calls of a complete run. *)
Definition run_marks : list Mark :=
  [ MkCreateBuffer (WIDTH * HEIGHT * sizeof_Pixel) VK_BUFFER_USAGE_STORAGE_BUFFER_BIT;
    MkCreateBuffer sizeof_uint32_t VK_BUFFER_USAGE_UNIFORM_BUFFER_BIT;
    MkUpdateDescriptorSets 2;
    MkSeed; MkMap 4; MkCopy 4; MkUnmap;
    MkRecordDispatch; MkSubmit; MkWait;
    MkMap (WIDTH * HEIGHT * sizeof_Pixel); MkUnmap ].

(** ** Concrete environments *)

Definition sample_memreq : VkMemoryRequirements :=
  {| mr_size := 256; mr_alignment := 256; mr_memoryTypeBits := 0x7 |}.

(** device-local; host-visible + host-coherent; host-visible + coherent + cached *)
Definition sample_memoryTypes : list Z := [0x1; 0x6; 0xE].

(** A debug build on a driver where every call succeeds. *)
Definition env_ok : Env :=
  {| NDEBUG := false;
     FILE__ := "src/main.cpp";
     clock_count := fun n => 1700000000000000000 + Z.of_nat n;
     vk_result := fun _ => VK_SUCCESS;
     vk_out := fun n => 4096 + Z.of_nat n;
     vk_memreq := fun _ => sample_memreq;
     memoryTypes := sample_memoryTypes;
     host_writable := fun p _ => 4096 <=? p;
     memory_after_newSeed := fun _ => 0 |}.

(** A release build (-DNDEBUG) on a driver that is out of device memory. *)
Definition env_release_oom : Env :=
  {| NDEBUG := true;
     FILE__ := "src/main.cpp";
     clock_count := fun n => 1700000000000000000 + Z.of_nat n;
     vk_result := fun _ => VK_ERROR_OUT_OF_DEVICE_MEMORY;
     vk_out := fun _ => 0;
     vk_memreq := fun _ => sample_memreq;
     memoryTypes := sample_memoryTypes;
     host_writable := fun p _ => 4096 <=? p;
     memory_after_newSeed := fun _ => 0 |}.

(** The same driver under a debug build. *)
Definition env_debug_oom : Env :=
  {| NDEBUG := false;
     FILE__ := "src/main.cpp";
     clock_count := clock_count env_release_oom;
     vk_result := vk_result env_release_oom;
     vk_out := vk_out env_release_oom;
     vk_memreq := vk_memreq env_release_oom;
     memoryTypes := memoryTypes env_release_oom;
     host_writable := host_writable env_release_oom;
     memory_after_newSeed := memory_after_newSeed env_release_oom |}.

(** A debug build on a driver whose calls fail with
    VK_ERROR_MEMORY_MAP_FAILED but which leaves a usable address in the
    caller's pointer. *)
Definition env_map_failed : Env :=
  {| NDEBUG := false;
     FILE__ := "src/main.cpp";
     clock_count := fun n => 1700000000000000000 + Z.of_nat n;
     vk_result := fun _ => VK_ERROR_MEMORY_MAP_FAILED;
     vk_out := fun n => 4096 + Z.of_nat n;
     vk_memreq := fun _ => sample_memreq;
     memoryTypes := sample_memoryTypes;
     host_writable := fun p _ => 4096 <=? p;
     memory_after_newSeed := fun _ => 0 |}.

(** Omitted methods of which [findPhysicalDevice] throws an exception. *)
Definition omitted_throwing (e : Exception) : Omitted :=
  {| createInstance := createInstance_spec;
     findPhysicalDevice := throw e;
     createDevice := createDevice_spec;
     createBuffer := createBuffer_spec;
     createComputePipeline := createComputePipeline_spec;
     createCommandBuffer := createCommandBuffer_spec;
     runCommandBuffer_rest := runCommandBuffer_rest_spec;
     saveRenderedImage := saveRenderedImage_spec;
     cleanup := cleanup_spec |}.

Definition no_device_error : Exception :=
  {| dynamic_type := std_runtime_error;
     what := "could not find a device with vulkan support" |}.

Definition length_failure : Exception :=
  {| dynamic_type := std_length_error; what := "vector::reserve" |}.

(** A clock that advances by 2^32 ticks between two readings. *)
Definition env_wrapping : Env :=
  {| NDEBUG := false;
     FILE__ := "src/main.cpp";
     clock_count := fun n => 2 ^ 32 * Z.of_nat n;
     vk_result := fun _ => VK_SUCCESS;
     vk_out := fun n => 4096 + Z.of_nat n;
     vk_memreq := fun _ => sample_memreq;
     memoryTypes := sample_memoryTypes;
     host_writable := fun p _ => 4096 <=? p;
     memory_after_newSeed := fun _ => 0 |}.

(** The world after [n] clock readings and nothing else. *)
Definition world_after_reads (n : nat) : World :=
  {| app := ComputeApplication_new; trace := []; vk_calls := 0%nat; clock_reads := n |}.

(** The clock reading an invocation of [generateSeed] observes. *)
Definition reading (env : Env) (w : World) : Z := clock_count env (clock_reads w).

(** ** Memory types that qualify *)

(** Every requested property bit is among the type's property bits. *)
Definition flags_superset (flags wanted : Z) : Prop :=
  forall k, Z.testbit wanted k = true -> Z.testbit flags k = true.

Definition suitable (types : list Z) (typeBits properties : Z) (i : nat) : Prop :=
  exists flags,
    nth_error types i = Some flags /\
    Z.testbit typeBits (Z.of_nat i) = true /\
    flags_superset flags properties.

Definition lowest_suitable (types : list Z) (typeBits properties : Z) (i : nat) : Prop :=
  suitable types typeBits properties i /\
  forall j, (j < i)%nat -> ~ suitable types typeBits properties j.

(** [w] after the events [es] have been appended to its trace. *)
Definition with_events (w : World) (es : list Event) : World :=
  {| app := app w; trace := trace w ++ es;
     vk_calls := vk_calls w; clock_reads := clock_reads w |}.

(** The line [VK_CHECK_RESULT] prints for status [res] at [line]. *)
Definition fatal_line (env : Env) (res line : Z) : Event :=
  EvPrintf "Fatal: VkResult is %d in %s at line %d\n"
           [PInt res; PStr (FILE__ env); PInt line].

(** The dynamic types a handler for [const std::runtime_error&] binds to. *)
Definition runtime_error_family : list ExnClass :=
  [ std_runtime_error; std_range_error; std_overflow_error;
    std_underflow_error; std_system_error ].

(** The world right after the driver call [c] issued in [w]: the status
    and the handle written back are the driver's. *)
Definition after_vk (env : Env) (w : World) (c : VkCall) (out : option Member) : World :=
  {| app := match out with
            | Some m => assign m (vk_out env (vk_calls w)) (app w)
            | None => app w
            end;
     trace := trace w ++ [EvVk c (Some (vk_result env (vk_calls w)))];
     vk_calls := S (vk_calls w);
     clock_reads := clock_reads w |}.

(** What a [VK_CHECK_RESULT] that lets control through leaves in the trace
    for the call [c] with status [res]. *)
Definition checked_call_events (env : Env) (line : Z) (c : VkCall) (res : VkResult)
  : list Event :=
  EvVk c (Some res) :: (if res =? VK_SUCCESS then [] else [fatal_line env res line]).

(** The assertion report of [VK_CHECK_RESULT] at [line]. *)
Definition assert_report (env : Env) (line : Z) : Event :=
  EvAssertFailed "res == VK_SUCCESS" (FILE__ env) line.

(** ** What is asked of a method whose body main.cpp omits *)

(** [adds m P]: whenever [m] returns it has only added events to the trace,
    and the events it added satisfy [P]. *)
Definition adds {A} (m : M A) (P : list Event -> Prop) : Prop :=
  forall env w x w',
    m env w = Ret x w' ->
    exists events, trace w' = trace w ++ events /\ P events.

Definition keeps_seedBufferSize {A} (m : M A) : Prop :=
  forall env w x w',
    m env w = Ret x w' -> seedBufferSize (app w') = seedBufferSize (app w).

Definition event_has_mark (p : Mark -> bool) (e : Event) : bool :=
  match mark e with
  | Some m => p m
  | None => false
  end.

(** Neither a clock reading, nor a recorded dispatch, nor a submission. *)
Definition quiet_before_upload (e : Event) : bool :=
  negb (event_has_mark is_seed e) && negb (event_has_mark is_dispatch_or_submit e).

Definition no_clock_reading (e : Event) : bool :=
  negb (event_has_mark is_seed e).

Definition quiet_setup {A} (m : M A) : Prop :=
  adds m (fun events => forallb quiet_before_upload events = true) /\
  keeps_seedBufferSize m.

Definition reads_no_clock {A} (m : M A) : Prop :=
  adds m (fun events => forallb no_clock_reading events = true).



(** The calls made by the methods that main.cpp shows. *)
Inductive ShownCall :=
| ShCreateBuffer (usage : Z)
| ShGetBufferMemoryRequirements
| ShAllocateMemory
| ShBindBufferMemory
| ShCreateDescriptorSetLayout (bindings : nat)
| ShCreateDescriptorPool
| ShAllocateDescriptorSets
| ShUpdateDescriptorSets (writes : nat)
| ShClockNow
| ShMapMemory
| ShMemcpy
| ShUnmapMemory.

Definition shown (e : Event) : option ShownCall :=
  match e with
  | EvClockNow _ => Some ShClockNow
  | EvMemcpy _ _ => Some ShMemcpy
  | EvVk (vkCreateBuffer _ info) _ => Some (ShCreateBuffer (bci_usage info))
  | EvVk (vkGetBufferMemoryRequirements _ _) _ => Some ShGetBufferMemoryRequirements
  | EvVk (vkAllocateMemory _ _) _ => Some ShAllocateMemory
  | EvVk (vkBindBufferMemory _ _ _ _) _ => Some ShBindBufferMemory
  | EvVk (vkCreateDescriptorSetLayout _ info) _ =>
      Some (ShCreateDescriptorSetLayout (List.length (lci_pBindings info)))
  | EvVk (vkCreateDescriptorPool _ _) _ => Some ShCreateDescriptorPool
  | EvVk (vkAllocateDescriptorSets _ _) _ => Some ShAllocateDescriptorSets
  | EvVk (vkUpdateDescriptorSets _ writes _) _ =>
      Some (ShUpdateDescriptorSets (List.length writes))
  | EvVk (vkMapMemory _ _ _ _ _) _ => Some ShMapMemory
  | EvVk (vkUnmapMemory _ _) _ => Some ShUnmapMemory
  | _ => None
  end.

Definition shown_calls (t : list Event) : list ShownCall :=
  flat_map (fun e => match shown e with Some c => [c] | None => [] end) t.

(** The world in which createSeedBuffer calls findMemoryType: the buffer
    has been created and its requirements queried (main.cpp:83-92). *)
Definition seed_buffer_created (env : Env) (w : World) : World :=
  {| app := assign m_seedBuffer (vk_out env (vk_calls w)) (app w);
     trace :=
       trace w ++
       checked_call_events env 89
         (vkCreateBuffer (device (app w))
            {| bci_sType := VK_STRUCTURE_TYPE_BUFFER_CREATE_INFO;
               bci_size := seedBufferSize (app w);
               bci_usage := VK_BUFFER_USAGE_UNIFORM_BUFFER_BIT;
               bci_sharingMode := VK_SHARING_MODE_EXCLUSIVE |})
         (vk_result env (vk_calls w)) ++
       [EvVk (vkGetBufferMemoryRequirements (device (app w)) (vk_out env (vk_calls w)))
             None];
     vk_calls := S (S (vk_calls w));
     clock_reads := clock_reads w |}.

(** * Properties *)

(** ** Fixed-width arithmetic *)

Lemma to_uint32_range (z : Z) : 0 <= to_uint32 z < 2 ^ 32.
Proof. unfold to_uint32. apply Z.mod_pos_bound. lia. Qed.

Lemma to_uint32_low_bits (z : Z) : to_uint32 z = Z.land z (Z.ones 32).
Proof. unfold to_uint32. now rewrite Z.land_ones by lia. Qed.

Lemma to_uint32_eq_iff (x y : Z) :
  to_uint32 x = to_uint32 y <-> (y - x) mod 2 ^ 32 = 0.
Proof.
  unfold to_uint32. split; intro H.
  - rewrite Zminus_mod, H, Z.sub_diag. reflexivity.
  - apply Z.mod_divide in H; [| lia]. destruct H as [q Hq].
    replace y with (x + q * 2 ^ 32) by lia.
    now rewrite Z.mod_add by lia.
Qed.


(** ** Reasoning about computations *)

Lemma bind_Ret_inv {A B} (m : M A) (k : A -> M B) env w y w' :
  bind m k env w = Ret y w' ->
  exists x w1, m env w = Ret x w1 /\ k x env w1 = Ret y w'.
Proof.
  unfold bind. destruct (m env w) as [x w1 | w1 | e w1 | w1]; try discriminate.
  intros H. now exists x, w1.
Qed.

Lemma marks_app (t1 t2 : list Event) : marks (t1 ++ t2) = marks t1 ++ marks t2.
Proof. unfold marks. apply flat_map_app. Qed.

Lemma mark_EvVk_result (c : VkCall) (r1 r2 : option VkResult) :
  mark (EvVk c r1) = mark (EvVk c r2).
Proof. destruct c; reflexivity. Qed.

Lemma sizes_set_assign (m : Member) (v : Z) (o : ComputeApplication) :
  m <> m_bufferSize -> sizes_set o -> sizes_set (assign m v o).
Proof.
  unfold sizes_set. intros Hm [H1 H2]. split; [exact H1|].
  destruct m; try exact H2. now elim Hm.
Qed.

(** What a checked driver call leaves behind when control comes back:
    the call, possibly followed by the "Fatal" line. *)
Lemma VK_CHECK_RESULT_vk_inv (line : Z) (c : VkCall) (out : option Member) env w x w' :
  VK_CHECK_RESULT line (vk c out) env w = Ret x w' ->
  exists extra,
    marks extra = [] /\
    w' = {| app := match out with
                   | Some m => assign m (vk_out env (vk_calls w)) (app w)
                   | None => app w
                   end;
            trace := (trace w ++ [EvVk c (Some (vk_result env (vk_calls w)))]) ++ extra;
            vk_calls := S (vk_calls w);
            clock_reads := clock_reads w |}.
Proof.
  unfold VK_CHECK_RESULT, bind, vk, printf, emit, assert, ret, abort. simpl.
  destruct (vk_result env (vk_calls w) =? VK_SUCCESS) eqn:E; simpl.
  - intros H. injection H as _ <-. exists []. split; [reflexivity|].
    now rewrite app_nil_r.
  - destruct (NDEBUG env); simpl; [|discriminate].
    intros H. injection H as _ <-. eexists. split; [|reflexivity]. reflexivity.
Qed.

Lemma findMemoryType_inv (typeBits properties : Z) env w x w' :
  findMemoryType typeBits properties env w = Ret x w' -> w' = w.
Proof.
  unfold findMemoryType.
  destruct (findMemoryType_from 0 (memoryTypes env) typeBits properties);
    [|discriminate].
  intros H. now injection H.
Qed.

Lemma memcpy_uint32_Ret_inv (dst value n : Z) env w x w' :
  memcpy_uint32 dst value n env w = Ret x w' ->
  host_writable env dst n = true /\
  w' = {| app := app w;
          trace := trace w ++ [EvMemcpy dst (bytes_from_newSeed env value (Z.to_nat n))];
          vk_calls := vk_calls w;
          clock_reads := clock_reads w |}.
Proof.
  unfold memcpy_uint32, emit.
  destruct (host_writable env dst n); [|discriminate].
  intros H. inversion H; subst; clear H. split; reflexivity.
Qed.


Lemma bytes_from_newSeed_length env (value : Z) (n : nat) :
  List.length (bytes_from_newSeed env value n) = n.
Proof.
  unfold bytes_from_newSeed.
  rewrite length_app, length_map, length_seq, length_firstn.
  unfold object_bytes_uint32. cbn [List.length]. lia.
Qed.

(** One returned step of a method body. *)
Ltac step H :=
  cbv beta zeta in H;
  lazymatch type of H with
  | this _ _ = Ret _ _ =>
      unfold this in H; inversion H; subst; clear H
  | VK_CHECK_RESULT _ (vk _ _) _ _ = Ret _ _ =>
      let extra := fresh "extra" in
      let Hextra := fresh "Hextra" in
      apply VK_CHECK_RESULT_vk_inv in H; destruct H as (extra & Hextra & H);
      subst
  | findMemoryType _ _ _ _ = Ret _ _ =>
      apply findMemoryType_inv in H; subst
  | memcpy_uint32 _ _ _ _ _ = Ret _ _ =>
      let Hwritable := fresh "Hwritable" in
      apply memcpy_uint32_Ret_inv in H; destruct H as (Hwritable & H); subst
  | _ =>
      unfold getBufferMemoryRequirements, mapMemory, generateSeed, memcpy_uint32,
        vk_void, vk, store, printf, emit, ret in H;
      inversion H; subst; clear H
  end.

Ltac steps H :=
  repeat (cbv beta zeta in H;
          lazymatch type of H with
          | bind _ _ _ _ = Ret _ _ =>
              let x := fresh "x" in
              let w1 := fresh "w" in
              let H1 := fresh "Hstep" in
              apply bind_Ret_inv in H; destruct H as (x & w1 & H1 & H); step H1
          end);
  step H.

Ltac read_marks :=
  cbn [trace app vk_calls clock_reads];
  rewrite ?marks_app;
  repeat match goal with
         | Hx : marks ?e = [] |- _ => rewrite Hx
         end;
  cbn [marks flat_map mark List.app bci_size bci_usage List.length];
  rewrite ?app_nil_r, <- ?app_assoc;
  cbn [List.app].

Lemma createSeedBuffer_emits :
  emits createSeedBuffer [MkCreateBuffer sizeof_uint32_t VK_BUFFER_USAGE_UNIFORM_BUFFER_BIT].
Proof.
  intros env w x w' Hs H. unfold createSeedBuffer in H. steps H.
  split.
  - read_marks. destruct Hs as [-> _]. reflexivity.
  - cbn [app]. repeat (apply sizes_set_assign; [discriminate|]). exact Hs.
Qed.

Lemma emits_bind {A B} (m : M A) (k : A -> M B) (ms1 ms2 : list Mark) :
  emits m ms1 -> (forall x, emits (k x) ms2) -> emits (bind m k) (ms1 ++ ms2).
Proof.
  intros Hm Hk env w y w' Hs H.
  apply bind_Ret_inv in H. destruct H as (x & w1 & H1 & H2).
  destruct (Hm env w x w1 Hs H1) as [E1 Hs1].
  destruct (Hk x env w1 y w' Hs1 H2) as [E2 Hs2].
  split; [|exact Hs2]. now rewrite E2, E1, app_assoc.
Qed.

Ltac emits_by_steps def :=
  let env := fresh "env" in
  let w := fresh "w" in
  let x := fresh "x" in
  let w' := fresh "w'" in
  let Hs := fresh "Hs" in
  let H := fresh "H" in
  intros env w x w' Hs H; unfold def in H; steps H;
  split;
  [ read_marks;
    try (destruct Hs as [Hs1 Hs2]; rewrite ?Hs1, ?Hs2); try reflexivity
  | cbn [app]; repeat (apply sizes_set_assign; [discriminate|]); exact Hs ].

Lemma createDescriptorSetLayout_emits : emits createDescriptorSetLayout [].
Proof. emits_by_steps createDescriptorSetLayout. Qed.

Lemma createDescriptorSet_emits :
  emits createDescriptorSet [MkUpdateDescriptorSets 2].
Proof. emits_by_steps createDescriptorSet. Qed.

Lemma runCommandBuffer_upload_emits :
  emits runCommandBuffer_upload [MkSeed; MkMap 4; MkCopy 4; MkUnmap].
Proof. emits_by_steps runCommandBuffer_upload. Qed.

Lemma createInstance_spec_emits : emits createInstance_spec [].
Proof. emits_by_steps createInstance_spec. Qed.

Lemma findPhysicalDevice_spec_emits : emits findPhysicalDevice_spec [].
Proof. emits_by_steps findPhysicalDevice_spec. Qed.

Lemma createDevice_spec_emits : emits createDevice_spec [].
Proof. emits_by_steps createDevice_spec. Qed.

Lemma createBuffer_spec_emits :
  emits createBuffer_spec
        [MkCreateBuffer (WIDTH * HEIGHT * sizeof_Pixel) VK_BUFFER_USAGE_STORAGE_BUFFER_BIT].
Proof. emits_by_steps createBuffer_spec. Qed.

Lemma createComputePipeline_spec_emits : emits createComputePipeline_spec [].
Proof. emits_by_steps createComputePipeline_spec. Qed.

Lemma createCommandBuffer_spec_emits : emits createCommandBuffer_spec [].
Proof. emits_by_steps createCommandBuffer_spec. Qed.

Lemma runCommandBuffer_rest_spec_emits :
  emits runCommandBuffer_rest_spec [MkRecordDispatch; MkSubmit; MkWait].
Proof. emits_by_steps runCommandBuffer_rest_spec. Qed.

Lemma saveRenderedImage_spec_emits :
  emits saveRenderedImage_spec [MkMap (WIDTH * HEIGHT * sizeof_Pixel); MkUnmap].
Proof. emits_by_steps saveRenderedImage_spec. Qed.

Lemma cleanup_spec_emits : emits cleanup_spec [].
Proof. emits_by_steps cleanup_spec. Qed.

Lemma emits_bind_eq {A B} (m : M A) (k : A -> M B) (ms ms1 ms2 : list Mark) :
  emits m ms1 -> (forall x, emits (k x) ms2) -> ms = ms1 ++ ms2 -> emits (bind m k) ms.
Proof. intros Hm Hk ->. now apply emits_bind. Qed.

Create HintDb emits_db.
#[local] Hint Resolve
  createSeedBuffer_emits createDescriptorSetLayout_emits createDescriptorSet_emits
  runCommandBuffer_upload_emits createInstance_spec_emits findPhysicalDevice_spec_emits
  createDevice_spec_emits createBuffer_spec_emits createComputePipeline_spec_emits
  createCommandBuffer_spec_emits runCommandBuffer_rest_spec_emits
  saveRenderedImage_spec_emits cleanup_spec_emits : emits_db.

Ltac emits_seq :=
  lazymatch goal with
  | |- emits (bind _ _) _ =>
      eapply emits_bind_eq;
      [ emits_seq | intros ?; emits_seq | reflexivity ]
  | |- _ => solve [eauto with emits_db]
  end.

Lemma runCommandBuffer_spec_emits :
  emits (runCommandBuffer omitted_spec)
        [MkSeed; MkMap 4; MkCopy 4; MkUnmap; MkRecordDispatch; MkSubmit; MkWait].
Proof.
  unfold runCommandBuffer, omitted_spec;
    cbn [runCommandBuffer_rest]. emits_seq.
Qed.

#[local] Hint Resolve runCommandBuffer_spec_emits : emits_db.

(** The marked calls of every run of the program that returns. *)
Lemma run_spec_marks env x w' :
  run omitted_spec env initial_world = Ret x w' ->
  marks (trace w') = run_marks /\ sizes_set (app w').
Proof.
  unfold run. intros H.
  apply bind_Ret_inv in H. destruct H as (x0 & w1 & H1 & H).
  unfold store in H1. inversion H1; subst; clear H1.
  cbv beta in H.
  match type of H with
  | ?m _ ?w1 = Ret _ _ =>
      assert (Hem : emits m run_marks);
      [ unfold omitted_spec;
        cbn [createInstance findPhysicalDevice createDevice createBuffer
             createComputePipeline createCommandBuffer saveRenderedImage cleanup];
        fold omitted_spec; emits_seq
      | assert (Hs : sizes_set (app w1)) by (split; reflexivity);
        destruct (Hem env w1 x w' Hs H) as [E Hs'] ]
  end.
  split; [exact E | exact Hs'].
Qed.

(** ** generateSeed *)

Lemma generateSeed_returns env w :
  generateSeed env w =
  Ret (to_uint32 (reading env w))
      {| app := app w; trace := trace w ++ [EvClockNow (reading env w)];
         vk_calls := vk_calls w; clock_reads := S (clock_reads w) |}.
Proof. reflexivity. Qed.

Lemma generateSeed_value env w s w' :
  generateSeed env w = Ret s w' -> s = to_uint32 (reading env w).
Proof. rewrite generateSeed_returns. intros H. now injection H. Qed.

(** C10: generateSeed returns the clock's tick count reduced modulo 2^32,
    a value in the range of a 32-bit unsigned integer (the low 32 bits of
    the count); so two invocations that observe distinct tick counts
    congruent modulo 2^32 return the same seed. *)
Theorem generateSeed_is_count_mod_2_32 :
  (forall env w,
      exists w',
        generateSeed env w = Ret (reading env w mod 2 ^ 32) w' /\
        0 <= reading env w mod 2 ^ 32 < 2 ^ 32 /\
        reading env w mod 2 ^ 32 = Z.land (reading env w) (Z.ones 32)) /\
  (forall env1 w1 env2 w2 s1 s2 w1' w2',
      generateSeed env1 w1 = Ret s1 w1' ->
      generateSeed env2 w2 = Ret s2 w2' ->
      reading env1 w1 <> reading env2 w2 ->
      reading env1 w1 mod 2 ^ 32 = reading env2 w2 mod 2 ^ 32 ->
      s1 = s2).
Proof.
  split.
  - intros env w. eexists. split; [apply generateSeed_returns|].
    split; [apply to_uint32_range | apply to_uint32_low_bits].
  - intros env1 w1 env2 w2 s1 s2 w1' w2' H1 H2 _ Hc.
    apply generateSeed_value in H1, H2. subst. exact Hc.
Qed.

Lemma generateSeed_is_count_mod_2_32_witness :
  reading env_wrapping (world_after_reads 0) <> reading env_wrapping (world_after_reads 1) /\
  to_uint32 (reading env_wrapping (world_after_reads 0)) =
  to_uint32 (reading env_wrapping (world_after_reads 1)).
Proof.
  split; [vm_compute; discriminate|].
  apply (proj2 generateSeed_is_count_mod_2_32
               env_wrapping (world_after_reads 0) env_wrapping (world_after_reads 1)
               _ _ _ _ (generateSeed_returns _ _) (generateSeed_returns _ _)).
  - vm_compute; discriminate.
  - reflexivity.
Defined.

(** C2, as stated, fails: readings 0 and 2^32 are 4294967296 ticks apart
    and both give the seed 0. *)
Lemma generateSeed_one_tick_apart_may_collide :
  ~ (forall env1 w1 env2 w2 s1 s2 w1' w2',
        is_int64 (reading env1 w1) -> is_int64 (reading env2 w2) ->
        generateSeed env1 w1 = Ret s1 w1' ->
        generateSeed env2 w2 = Ret s2 w2' ->
        1 <= Z.abs (reading env2 w2 - reading env1 w1) ->
        s1 <> s2).
Proof.
  intros H.
  refine (H env_wrapping (world_after_reads 0) env_wrapping (world_after_reads 1)
            0 0 _ _ _ _ (generateSeed_returns _ _) (generateSeed_returns _ _) _ eq_refl).
  - unfold is_int64, reading; cbn; lia.
  - unfold is_int64, reading; cbn; lia.
  - unfold reading; cbn; lia.
Qed.

(** C2 (amended): two invocations of generateSeed whose clock readings
    differ by at least one tick return different seeds provided the
    difference is not a multiple of 2^32 ticks - in particular whenever the
    readings are less than 2^32 ticks apart. *)
Theorem generateSeed_distinct_unless_wrapped :
  forall env1 w1 env2 w2 s1 s2 w1' w2',
    generateSeed env1 w1 = Ret s1 w1' ->
    generateSeed env2 w2 = Ret s2 w2' ->
    1 <= Z.abs (reading env2 w2 - reading env1 w1) ->
    ((reading env2 w2 - reading env1 w1) mod 2 ^ 32 <> 0 -> s1 <> s2) /\
    (Z.abs (reading env2 w2 - reading env1 w1) < 2 ^ 32 -> s1 <> s2).
Proof.
  intros env1 w1 env2 w2 s1 s2 w1' w2' H1 H2 Hd.
  apply generateSeed_value in H1, H2. subst.
  assert (Hmain : (reading env2 w2 - reading env1 w1) mod 2 ^ 32 <> 0 ->
                  to_uint32 (reading env1 w1) <> to_uint32 (reading env2 w2)).
  { intros Hm He. apply Hm. now apply to_uint32_eq_iff. }
  split; [exact Hmain|].
  intros Hlt. apply Hmain. intros Hz.
  apply Z.mod_divide in Hz; [| lia]. destruct Hz as [q Hq]. nia.
Qed.

Lemma generateSeed_distinct_unless_wrapped_witness :
  to_uint32 (reading env_ok (world_after_reads 0)) <>
  to_uint32 (reading env_ok (world_after_reads 1)).
Proof.
  apply (proj1 (generateSeed_distinct_unless_wrapped
                  env_ok (world_after_reads 0) env_ok (world_after_reads 1)
                  _ _ _ _ (generateSeed_returns _ _) (generateSeed_returns _ _)
                  ltac:(vm_compute; discriminate))).
  vm_compute. discriminate.
Defined.

(** ** VK_CHECK_RESULT *)

Lemma VK_CHECK_RESULT_success (line : Z) (f : M VkResult) env w w1 :
  f env w = Ret VK_SUCCESS w1 -> VK_CHECK_RESULT line f env w = Ret tt w1.
Proof. unfold VK_CHECK_RESULT, bind. intros ->. reflexivity. Qed.

(** In a build without NDEBUG a failed call is logged and the assertion
    ends the process. *)
Lemma VK_CHECK_RESULT_debug_aborts (line : Z) (f : M VkResult) env w res w1 :
  NDEBUG env = false ->
  f env w = Ret res w1 ->
  res <> VK_SUCCESS ->
  VK_CHECK_RESULT line f env w =
  Abort (with_events w1 [fatal_line env res line;
                         EvAssertFailed "res == VK_SUCCESS" (FILE__ env) line]).
Proof.
  intros Hd Hf Hr. apply Z.eqb_neq in Hr.
  unfold VK_CHECK_RESULT, bind, assert, printf, emit, abort, with_events, fatal_line.
  rewrite Hf, Hr. cbn [negb trace app vk_calls clock_reads]. rewrite Hd.
  unfold bind. cbn [trace app vk_calls clock_reads]. now rewrite <- app_assoc.
Qed.

(** With NDEBUG the assertion is compiled out: the failed call is logged
    and the statement after the macro runs. *)
Lemma VK_CHECK_RESULT_release_continues (line : Z) (f : M VkResult) env w res w1 :
  NDEBUG env = true ->
  f env w = Ret res w1 ->
  res <> VK_SUCCESS ->
  VK_CHECK_RESULT line f env w = Ret tt (with_events w1 [fatal_line env res line]).
Proof.
  intros Hd Hf Hr. apply Z.eqb_neq in Hr.
  unfold VK_CHECK_RESULT, bind, assert, printf, emit, with_events, fatal_line.
  rewrite Hf, Hr. cbn [negb trace app vk_calls clock_reads]. now rewrite Hd.
Qed.

(** C1 (the code departs from it): in a release build (NDEBUG) on a driver
    that reports VK_ERROR_OUT_OF_DEVICE_MEMORY, createDescriptorSet logs
    the failure of vkCreateDescriptorPool at line 137 and then goes on to
    call vkAllocateDescriptorSets and vkUpdateDescriptorSets, and returns. *)
Theorem createDescriptorSet_runs_past_failed_call :
  exists w',
    createDescriptorSet env_release_oom initial_world = Ret tt w' /\
    exists pool_info alloc_info writes,
      trace w' =
      [ EvVk (vkCreateDescriptorPool 0 pool_info) (Some VK_ERROR_OUT_OF_DEVICE_MEMORY);
        EvPrintf "Fatal: VkResult is %d in %s at line %d\n"
                 [PInt (-2); PStr "src/main.cpp"; PInt 137];
        EvVk (vkAllocateDescriptorSets 0 alloc_info) (Some VK_ERROR_OUT_OF_DEVICE_MEMORY);
        EvPrintf "Fatal: VkResult is %d in %s at line %d\n"
                 [PInt (-2); PStr "src/main.cpp"; PInt 145];
        EvVk (vkUpdateDescriptorSets 0 writes 0) None ].
Proof.
  eexists. split; [vm_compute; reflexivity|].
  eexists; eexists; eexists. reflexivity.
Qed.

(** The same driver under a debug build: the first failed call is the
    last thing the method does. *)
Lemma createDescriptorSet_debug_aborts :
  exists w pool_info,
    createDescriptorSet env_debug_oom initial_world = Abort w /\
    trace w =
    [ EvVk (vkCreateDescriptorPool 0 pool_info) (Some VK_ERROR_OUT_OF_DEVICE_MEMORY);
      EvPrintf "Fatal: VkResult is %d in %s at line %d\n"
               [PInt (-2); PStr "src/main.cpp"; PInt 137];
      EvAssertFailed "res == VK_SUCCESS" "src/main.cpp" 137 ].
Proof.
  eexists; eexists. split; [vm_compute; reflexivity|]. reflexivity.
Qed.

(** ** findMemoryType *)

Lemma has_all_flags_spec (flags wanted : Z) :
  has_all_flags flags wanted = true <-> flags_superset flags wanted.
Proof.
  unfold has_all_flags, flags_superset. rewrite Z.eqb_eq. split.
  - intros H k Hk. rewrite <- H in Hk. rewrite Z.land_spec in Hk.
    now apply andb_prop in Hk.
  - intros H. apply Z.bits_inj'. intros n _. rewrite Z.land_spec.
    destruct (Z.testbit wanted n) eqn:E.
    + now rewrite (H n E).
    + apply andb_false_r.
Qed.

Lemma memory_type_suits_spec (typeBits properties : Z) (i : nat) (flags : Z) :
  memory_type_suits typeBits properties i flags = true <->
  Z.testbit typeBits (Z.of_nat i) = true /\ flags_superset flags properties.
Proof.
  unfold memory_type_suits. rewrite andb_true_iff, has_all_flags_spec. tauto.
Qed.

(** The scan from entry [i]: a hit is the first entry that suits, a miss
    means that no entry suits. *)
Lemma findMemoryType_from_Some (typeBits properties : Z) (types : list Z) :
  forall i j,
    findMemoryType_from i types typeBits properties = Some j ->
    exists k flags,
      j = (i + k)%nat /\
      nth_error types k = Some flags /\
      memory_type_suits typeBits properties j flags = true /\
      forall k' flags',
        (k' < k)%nat -> nth_error types k' = Some flags' ->
        memory_type_suits typeBits properties (i + k') flags' = false.
Proof.
  induction types as [|flags rest IH]; intros i j H; [discriminate|].
  cbn [findMemoryType_from] in H.
  destruct (memory_type_suits typeBits properties i flags) eqn:E.
  - injection H as <-. exists 0%nat, flags.
    rewrite Nat.add_0_r. repeat split; trivial. intros k' flags' Hk. lia.
  - apply IH in H. destruct H as (k & fl & -> & Hn & Hs & Hlow).
    exists (S k), fl. repeat split.
    + lia.
    + exact Hn.
    + now replace (i + S k)%nat with (S i + k)%nat by lia.
    + intros k' flags' Hk Hn'. destruct k' as [|k'].
      * cbn in Hn'. injection Hn' as <-. now rewrite Nat.add_0_r.
      * cbn in Hn'. replace (i + S k')%nat with (S i + k')%nat by lia.
        apply (Hlow k' flags'); [lia | exact Hn'].
Qed.

Lemma findMemoryType_from_None (typeBits properties : Z) (types : list Z) :
  forall i,
    findMemoryType_from i types typeBits properties = None ->
    forall k flags,
      nth_error types k = Some flags ->
      memory_type_suits typeBits properties (i + k) flags = false.
Proof.
  induction types as [|flags rest IH]; intros i H k fl Hn.
  - destruct k; discriminate.
  - cbn [findMemoryType_from] in H.
    destruct (memory_type_suits typeBits properties i flags) eqn:E; [discriminate|].
    destruct k as [|k].
    + cbn in Hn. injection Hn as <-. now rewrite Nat.add_0_r.
    + cbn in Hn. replace (i + S k)%nat with (S i + k)%nat by lia.
      now apply (IH (S i) H k fl).
Qed.

Lemma findMemoryType_from_0_None (typeBits properties : Z) (types : list Z) :
  findMemoryType_from 0 types typeBits properties = None ->
  forall k flags,
    nth_error types k = Some flags ->
    memory_type_suits typeBits properties k flags = false.
Proof.
  intros H k flags Hn.
  exact (findMemoryType_from_None typeBits properties types 0%nat H k flags Hn).
Qed.

Lemma findMemoryType_from_lowest (types : list Z) (typeBits properties : Z) (i : nat) :
  findMemoryType_from 0 types typeBits properties = Some i <->
  lowest_suitable types typeBits properties i.
Proof.
  split.
  - intros H. apply findMemoryType_from_Some in H.
    destruct H as (k & flags & -> & Hn & Hs & Hlow). cbn [Nat.add] in *.
    split.
    + exists flags. split; [exact Hn|]. now apply memory_type_suits_spec.
    + intros j Hj (fl & Hnj & Hb & Hsup).
      assert (memory_type_suits typeBits properties j fl = true) as Ht
          by now apply memory_type_suits_spec.
      rewrite (Hlow j fl Hj Hnj) in Ht. discriminate.
  - intros [(flags & Hn & Hb & Hsup) Hlow].
    destruct (findMemoryType_from 0 types typeBits properties) as [j|] eqn:E.
    + apply findMemoryType_from_Some in E.
      destruct E as (k & fl & -> & Hnk & Hs & Hl). cbn [Nat.add] in *.
      f_equal.
      destruct (Nat.lt_trichotomy k i) as [Hlt | [Heq | Hgt]]; [|exact Heq|].
      * exfalso. apply (Hlow k Hlt). exists fl. split; [exact Hnk|].
        now apply memory_type_suits_spec.
      * assert (memory_type_suits typeBits properties i flags = true) as Ht
            by now apply memory_type_suits_spec.
        rewrite (Hl i flags Hgt Hn) in Ht. discriminate.
    + exfalso.
      assert (memory_type_suits typeBits properties i flags = true) as Ht
          by now apply memory_type_suits_spec.
      rewrite (findMemoryType_from_0_None _ _ _ E i flags Hn) in Ht. discriminate.
Qed.

Lemma findMemoryType_from_none_suitable (types : list Z) (typeBits properties : Z) :
  findMemoryType_from 0 types typeBits properties = None <->
  forall i, ~ suitable types typeBits properties i.
Proof.
  split.
  - intros H i (flags & Hn & Hb & Hsup).
    assert (memory_type_suits typeBits properties i flags = true) as Ht
        by now apply memory_type_suits_spec.
    rewrite (findMemoryType_from_0_None _ _ _ H i flags Hn) in Ht. discriminate.
  - intros H.
    destruct (findMemoryType_from 0 types typeBits properties) as [j|] eqn:E;
      [|reflexivity].
    apply findMemoryType_from_lowest in E. destruct E as [Hs _].
    now elim (H j).
Qed.

(** C4: over the memory types the device reports, findMemoryType returns
    the lowest index whose bit is set in the type bitmask and whose
    property flags include every requested flag, and it ends the process
    (fatal failure) when no index qualifies; one of the two always
    applies. *)
Theorem findMemoryType_lowest_or_fatal :
  forall env w typeBits properties,
    (forall i,
        lowest_suitable (memoryTypes env) typeBits properties i ->
        findMemoryType typeBits properties env w = Ret (Z.of_nat i) w) /\
    ((forall i, ~ suitable (memoryTypes env) typeBits properties i) ->
     findMemoryType typeBits properties env w = Abort w) /\
    ((exists i, lowest_suitable (memoryTypes env) typeBits properties i) \/
     (forall i, ~ suitable (memoryTypes env) typeBits properties i)).
Proof.
  intros env w typeBits properties. unfold findMemoryType. repeat split.
  - intros i Hi. apply findMemoryType_from_lowest in Hi. now rewrite Hi.
  - intros Hn. apply findMemoryType_from_none_suitable in Hn. now rewrite Hn.
  - destruct (findMemoryType_from 0 (memoryTypes env) typeBits properties) as [j|] eqn:E.
    + left. exists j. now apply findMemoryType_from_lowest.
    + right. now apply findMemoryType_from_none_suitable.
Qed.

Lemma findMemoryType_lowest_or_fatal_witness :
  findMemoryType 0x7 0x6 env_ok initial_world = Ret 1 initial_world /\
  findMemoryType 0x6 0x1 env_ok initial_world = Abort initial_world.
Proof.
  split.
  - apply (proj1 (findMemoryType_lowest_or_fatal env_ok initial_world 0x7 0x6) 1%nat).
    apply findMemoryType_from_lowest. reflexivity.
  - apply (proj1 (proj2 (findMemoryType_lowest_or_fatal env_ok initial_world 0x6 0x1))).
    apply findMemoryType_from_none_suitable. reflexivity.
Defined.

(** ** Workgroup counts *)

Lemma workgroupCount_div (extent : Z) :
  workgroupCount extent = (extent + (WORKGROUP_SIZE - 1)) / WORKGROUP_SIZE.
Proof.
  unfold workgroupCount, WORKGROUP_SIZE, Qceiling, Qfloor, Qdiv, Qmult, Qinv,
    Qopp, inject_Z.
  cbn [Qnum Qden Pos.mul]. rewrite Z.mul_1_r.
  change (Z.pos (1 * 32)) with 32.
  pose proof (Z.div_mod (- extent) 32 ltac:(lia)) as E1.
  pose proof (Z.mod_pos_bound (- extent) 32 ltac:(lia)) as B1.
  pose proof (Z.div_mod (extent + (32 - 1)) 32 ltac:(lia)) as E2.
  pose proof (Z.mod_pos_bound (extent + (32 - 1)) 32 ltac:(lia)) as B2.
  lia.
Qed.

(** C5: for positive width and height, the dispatch counts for workgroup
    size 32 are the ceilings of width/32 and height/32 - the least integers
    not below those quotients - and so groupsX*32 >= width and
    groupsY*32 >= height (with less than one workgroup to spare). *)
Theorem workgroupCount_is_ceiling :
  forall width height,
    0 < width -> 0 < height ->
    let groupsX := workgroupCount width in
    let groupsY := workgroupCount height in
    (inject_Z width / inject_Z 32 <= inject_Z groupsX)%Q /\
    (inject_Z (groupsX - 1) < inject_Z width / inject_Z 32)%Q /\
    (inject_Z height / inject_Z 32 <= inject_Z groupsY)%Q /\
    (inject_Z (groupsY - 1) < inject_Z height / inject_Z 32)%Q /\
    groupsX * 32 >= width /\ (groupsX - 1) * 32 < width /\
    groupsY * 32 >= height /\ (groupsY - 1) * 32 < height.
Proof.
  intros width height Hw Hh groupsX groupsY.
  assert (HX : groupsX = (width + 31) / 32) by apply workgroupCount_div.
  assert (HY : groupsY = (height + 31) / 32) by apply workgroupCount_div.
  repeat split.
  - apply Qle_ceiling.
  - apply Qceiling_lt.
  - apply Qle_ceiling.
  - apply Qceiling_lt.
  - pose proof (Z.div_mod (width + 31) 32 ltac:(lia)).
    pose proof (Z.mod_pos_bound (width + 31) 32 ltac:(lia)). lia.
  - pose proof (Z.div_mod (width + 31) 32 ltac:(lia)).
    pose proof (Z.mod_pos_bound (width + 31) 32 ltac:(lia)). lia.
  - pose proof (Z.div_mod (height + 31) 32 ltac:(lia)).
    pose proof (Z.mod_pos_bound (height + 31) 32 ltac:(lia)). lia.
  - pose proof (Z.div_mod (height + 31) 32 ltac:(lia)).
    pose proof (Z.mod_pos_bound (height + 31) 32 ltac:(lia)). lia.
Qed.

Lemma workgroupCount_is_ceiling_witness :
  workgroupCount WIDTH = 100 /\ workgroupCount HEIGHT = 75 /\
  workgroupCount WIDTH * 32 >= WIDTH /\ workgroupCount HEIGHT * 32 >= HEIGHT /\
  workgroupCount 33 = 2.
Proof.
  pose proof (workgroupCount_is_ceiling WIDTH HEIGHT ltac:(reflexivity) ltac:(reflexivity))
    as (_ & _ & _ & _ & HX & _ & HY & _).
  repeat split; try reflexivity; assumption.
Defined.

(** ** main *)

Lemma is_a_runtime_error_family (c : ExnClass) :
  is_a c std_runtime_error = true <-> In c runtime_error_family.
Proof.
  unfold runtime_error_family. split.
  - destruct c; cbn; intros H; try discriminate; tauto.
  - cbn. intros H; repeat (destruct H as [<- | H]; [reflexivity|]); contradiction.
Qed.

Lemma main_after_return (om : Omitted) env x w :
  run om env initial_world = Ret x w -> main om env = Exited EXIT_SUCCESS w.
Proof.
  intros H. unfold main, main_function, bind, try_catch. rewrite H. reflexivity.
Qed.

Lemma main_after_abort (om : Omitted) env w :
  run om env initial_world = Abort w -> main om env = Terminated w.
Proof.
  intros H. unfold main, main_function, bind, try_catch. rewrite H. reflexivity.
Qed.

Lemma main_after_throw (om : Omitted) env e w :
  run om env initial_world = Throw e w ->
  main om env =
  if is_a (dynamic_type e) std_runtime_error
  then Exited EXIT_FAILURE (with_events w [EvPrintf "%s\n" [PStr (what e)]])
  else Terminated w.
Proof.
  intros H. unfold main, main_function, bind, try_catch. rewrite H.
  destruct (is_a (dynamic_type e) std_runtime_error); reflexivity.
Qed.

(** C6: when run() completes normally the process exits with status 0;
    when run() throws a std::runtime_error (or a class derived from it),
    main prints its message and the process exits with the failing,
    non-zero status. *)
Theorem main_exit_status :
  forall om env,
    (forall w, run om env initial_world = Ret tt w ->
               main om env = Exited 0 w) /\
    (forall e w,
        run om env initial_world = Throw e w ->
        is_a (dynamic_type e) std_runtime_error = true ->
        main om env =
        Exited EXIT_FAILURE (with_events w [EvPrintf "%s\n" [PStr (what e)]]) /\
        EXIT_FAILURE <> 0).
Proof.
  intros om env. split.
  - intros w H. now apply main_after_return in H.
  - intros e w H Hc. rewrite (main_after_throw om env e w H), Hc.
    split; [reflexivity | discriminate].
Qed.

Lemma main_exit_status_witness :
  (exists w, main omitted_spec env_ok = Exited 0 w) /\
  (exists w,
      main (omitted_throwing no_device_error) env_ok =
      Exited 1 (with_events w
                  [EvPrintf "%s\n" [PStr "could not find a device with vulkan support"]])).
Proof.
  split.
  - eexists.
    apply (proj1 (main_exit_status omitted_spec env_ok)).
    vm_compute. reflexivity.
  - eexists.
    apply (proj2 (main_exit_status (omitted_throwing no_device_error) env_ok)
                 no_device_error).
    + vm_compute. reflexivity.
    + reflexivity.
Defined.

(** C9: the handler in main binds only to exceptions whose dynamic type is
    std::runtime_error or derived from it; any other exception thrown by
    run() is not caught there: the process is terminated with nothing
    printed and without the failing exit status, and main reports an exit
    status after a throw only for the runtime_error family. *)
Theorem main_catches_only_runtime_error :
  forall om env e w,
    run om env initial_world = Throw e w ->
    (is_a (dynamic_type e) std_runtime_error = true <->
     In (dynamic_type e) runtime_error_family) /\
    (is_a (dynamic_type e) std_runtime_error = false ->
     main om env = Terminated w) /\
    (forall status w', main om env = Exited status w' ->
                       is_a (dynamic_type e) std_runtime_error = true).
Proof.
  intros om env e w H. split; [apply is_a_runtime_error_family|].
  rewrite (main_after_throw om env e w H).
  destruct (is_a (dynamic_type e) std_runtime_error); split; intros; 
    try reflexivity; try discriminate.
Qed.

Lemma main_catches_only_runtime_error_witness :
  exists w,
    main (omitted_throwing length_failure) env_ok = Terminated w /\
    marks (trace w) = [].
Proof.
  eexists. split.
  - apply (proj1 (proj2 (main_catches_only_runtime_error
                           (omitted_throwing length_failure) env_ok length_failure _
                           ltac:(vm_compute; reflexivity)))).
    reflexivity.
  - reflexivity.
Defined.

(** ** Descriptor set layout and descriptor set *)

Lemma compute_stage_only (k : Z) :
  Z.testbit VK_SHADER_STAGE_COMPUTE_BIT k = true <-> k = compute_stage_bit_index.
Proof.
  unfold VK_SHADER_STAGE_COMPUTE_BIT, compute_stage_bit_index.
  change 0x20 with (2 ^ 5).
  destruct (Z.ltb_spec k 0) as [Hneg | Hpos].
  - rewrite Z.testbit_neg_r by exact Hneg. split; [discriminate | lia].
  - rewrite Z.pow2_bits_eqb by lia. rewrite Z.eqb_eq. split; congruence.
Qed.

Lemma createDescriptorSetLayout_call env w x w' :
  createDescriptorSetLayout env w = Ret x w' ->
  exists info res extra,
    marks extra = [] /\
    trace w' = trace w ++ EvVk (vkCreateDescriptorSetLayout (device (app w)) info) res :: extra /\
    lci_bindingCount info = 2 /\
    lci_pBindings info = layout_bindings.
Proof.
  intros H. unfold createDescriptorSetLayout in H. steps H.
  eexists; eexists; exists extra. cbn [trace].
  split; [exact Hextra|].
  split; [rewrite <- app_assoc; cbn [List.app]; reflexivity | split; reflexivity].
Qed.

Lemma createDescriptorSet_call env w x w' :
  createDescriptorSet env w = Ret x w' ->
  exists before,
    marks before = [] /\
    trace w' =
    trace w ++ before ++
    [EvVk (vkUpdateDescriptorSets (device (app w')) (descriptorWrites (app w')) 0) None] /\
    buffer (app w') = buffer (app w) /\
    seedBuffer (app w') = seedBuffer (app w) /\
    bufferSize (app w') = bufferSize (app w) /\
    seedBufferSize (app w') = seedBufferSize (app w).
Proof.
  intros H. unfold createDescriptorSet in H. steps H.
  cbn [trace app].
  match goal with
  | |- context [((((_ ++ [?c1]) ++ ?e1) ++ [?c2]) ++ ?e2) ++ _] =>
      exists ([c1] ++ e1 ++ [c2] ++ e2)
  end.
  split; [|split; [|repeat split]].
  - rewrite !marks_app, Hextra, Hextra0. reflexivity.
  - rewrite <- !app_assoc. reflexivity.
Qed.

(** C7: the layout declares exactly two bindings - slot 0 a storage buffer
    (which the shader may write), slot 1 a uniform buffer (read-only), each
    visible to the compute stage and to no other; createDescriptorSet
    populates the descriptor set by one update of two writes that tie slot
    0 to [buffer] and slot 1 to [seedBuffer]; and a run of the program
    performs that update exactly once. *)
Theorem descriptor_bindings_static :
  (List.length layout_bindings = 2%nat /\
   map binding layout_bindings = [0; 1] /\
   map descriptorType layout_bindings =
     [VK_DESCRIPTOR_TYPE_STORAGE_BUFFER; VK_DESCRIPTOR_TYPE_UNIFORM_BUFFER] /\
   map (fun b => shader_may_write (descriptorType b)) layout_bindings = [true; false] /\
   forall b k, In b layout_bindings ->
               (Z.testbit (stageFlags b) k = true <-> k = compute_stage_bit_index)) /\
  (forall env w w',
      createDescriptorSetLayout env w = Ret tt w' ->
      exists info res extra,
        marks extra = [] /\
        trace w' =
          trace w ++ EvVk (vkCreateDescriptorSetLayout (device (app w)) info) res :: extra /\
        lci_bindingCount info = 2 /\
        lci_pBindings info = layout_bindings) /\
  (forall env w w',
      createDescriptorSet env w = Ret tt w' ->
      exists before,
        count_marks is_update (marks before) = 0%nat /\
        trace w' =
          trace w ++ before ++
          [EvVk (vkUpdateDescriptorSets (device (app w')) (descriptorWrites (app w')) 0) None] /\
        buffer (app w') = buffer (app w) /\
        seedBuffer (app w') = seedBuffer (app w)) /\
  (forall o,
      map (fun wr => (wds_dstSet wr, wds_dstBinding wr, wds_descriptorType wr,
                      bi_buffer (wds_pBufferInfo wr)))
          (descriptorWrites o) =
      [ (descriptorSet o, 0, VK_DESCRIPTOR_TYPE_STORAGE_BUFFER, buffer o);
        (descriptorSet o, 1, VK_DESCRIPTOR_TYPE_UNIFORM_BUFFER, seedBuffer o) ]) /\
  (forall env w',
      run omitted_spec env initial_world = Ret tt w' ->
      count_marks is_update (marks (trace w')) = 1%nat /\
      In (MkUpdateDescriptorSets 2) (marks (trace w'))).
Proof.
  split; [|split; [|split; [|split]]].
  - repeat split; try reflexivity.
    + intros Hk. destruct H as [<- | [<- | []]]; now apply compute_stage_only.
    + intros Hk. destruct H as [<- | [<- | []]]; now apply compute_stage_only.
  - intros env w w' H. now apply createDescriptorSetLayout_call in H.
  - intros env w w' H. apply createDescriptorSet_call in H.
    destruct H as (before & Hm & Ht & Hb & Hsb & _).
    exists before. rewrite Hm. repeat split; assumption.
  - reflexivity.
  - intros env w' H. apply run_spec_marks in H. destruct H as [-> _].
    split; [reflexivity|]. cbn. tauto.
Qed.

Lemma descriptor_bindings_static_witness :
  exists w',
    run omitted_spec env_ok initial_world = Ret tt w' /\
    count_marks is_update (marks (trace w')) = 1%nat.
Proof.
  eexists. split; [vm_compute; reflexivity|].
  apply (proj2 (proj2 (proj2 (proj2 descriptor_bindings_static))) env_ok).
  vm_compute. reflexivity.
Defined.

(** ** Size of the pixel buffer *)

(** C8: a Pixel is four float channels, 16 bytes; [bufferSize] is set to
    width x height x sizeof(Pixel), which for 3200 x 2400 is
    3200 x 2400 x 16 bytes (no wrap-around in [size_t] or [uint32_t]); run()
    sets it before its first method call, and the descriptor for slot 0
    covers that many bytes. *)
Theorem bufferSize_is_width_height_pixel :
  List.length Pixel.members = 4%nat /\
  sizeof_Pixel = 4 * sizeof_float /\
  sizeof_Pixel = 16 /\
  bufferSize_value = WIDTH * HEIGHT * sizeof_Pixel /\
  WIDTH * HEIGHT * sizeof_Pixel = 3200 * 2400 * 16 /\
  (forall om env w x w',
      run om env w = Ret x w' ->
      exists w1 x1 w2,
        app w1 = assign m_bufferSize (WIDTH * HEIGHT * sizeof_Pixel) (app w) /\
        bufferSize (app w1) = 3200 * 2400 * 16 /\
        trace w1 = trace w /\
        createInstance om env w1 = Ret x1 w2) /\
  (forall o,
      map (fun wr => (wds_dstBinding wr, bi_offset (wds_pBufferInfo wr),
                      bi_range (wds_pBufferInfo wr)))
          (descriptorWrites o) =
      [ (0, 0, bufferSize o); (1, 0, seedBufferSize o) ]).
Proof.
  repeat split.
  intros om env w x w' H. unfold run in H.
  apply bind_Ret_inv in H. destruct H as (x0 & w1 & H1 & H).
  apply bind_Ret_inv in H. destruct H as (x1 & w2 & H2 & _).
  unfold store in H1. inversion H1; subst; clear H1.
  exists {| app := assign m_bufferSize bufferSize_value (app w);
            trace := trace w;
            vk_calls := vk_calls w;
            clock_reads := clock_reads w |}, x1, w2.
  repeat split. exact H2.
Qed.

Lemma bufferSize_is_width_height_pixel_witness :
  exists w1 x1 w2,
    bufferSize (app w1) = 122880000 /\
    trace w1 = [] /\
    createInstance omitted_spec env_ok w1 = Ret x1 w2.
Proof.
  destruct (proj2 (proj2 (proj2 (proj2 (proj2 bufferSize_is_width_height_pixel))))) as [H _].
  refine (match H omitted_spec env_ok initial_world tt _ _ with
          | ex_intro _ w1 (ex_intro _ x1 (ex_intro _ w2 (conj _ (conj Hb (conj Ht Hc))))) =>
              ex_intro _ w1 (ex_intro _ x1 (ex_intro _ w2 (conj Hb (conj Ht Hc))))
          end).
  vm_compute. reflexivity.
Defined.

(** ** Checked driver calls, evaluated *)

(** The macro around a driver call, evaluated. *)
Lemma VK_CHECK_RESULT_vk_eq (line : Z) (c : VkCall) (out : option Member) env w :
  VK_CHECK_RESULT line (vk c out) env w =
  let res := vk_result env (vk_calls w) in
  if res =? VK_SUCCESS then Ret tt (after_vk env w c out)
  else if NDEBUG env
       then Ret tt (with_events (after_vk env w c out) [fatal_line env res line])
       else Abort (with_events (after_vk env w c out)
                               [fatal_line env res line; assert_report env line]).
Proof.
  unfold VK_CHECK_RESULT, bind, vk, printf, emit, assert, ret, abort, with_events,
    after_vk, fatal_line, assert_report.
  cbn [app trace vk_calls clock_reads].
  destruct (vk_result env (vk_calls w) =? VK_SUCCESS); cbn [negb]; [reflexivity|].
  destruct (NDEBUG env); cbn [app trace vk_calls clock_reads]; [reflexivity|].
  unfold bind, emit. cbn [app trace vk_calls clock_reads].
  now rewrite <- (app_assoc _ [_] [_]).
Qed.

Lemma VK_CHECK_RESULT_vk_Ret_inv (line : Z) (c : VkCall) (out : option Member) env w x w' :
  VK_CHECK_RESULT line (vk c out) env w = Ret x w' ->
  (vk_result env (vk_calls w) = VK_SUCCESS \/ NDEBUG env = true) /\
  w' = {| app := app (after_vk env w c out);
          trace := trace w ++ checked_call_events env line c (vk_result env (vk_calls w));
          vk_calls := S (vk_calls w);
          clock_reads := clock_reads w |}.
Proof.
  rewrite VK_CHECK_RESULT_vk_eq. cbv zeta. unfold checked_call_events.
  destruct (vk_result env (vk_calls w) =? VK_SUCCESS) eqn:E.
  - intros H. inversion H; subst; clear H. split; [left; now apply Z.eqb_eq|].
    unfold after_vk. reflexivity.
  - destruct (NDEBUG env); [|discriminate].
    intros H. inversion H; subst; clear H. split; [now right|].
    unfold with_events, after_vk. cbn [app trace vk_calls clock_reads].
    now rewrite <- app_assoc.
Qed.

(** A returned step, keeping the exact events. *)
Ltac xstep H :=
  cbv beta zeta in H;
  lazymatch type of H with
  | this _ _ = Ret _ _ =>
      unfold this in H; inversion H; subst; clear H
  | VK_CHECK_RESULT _ (vk _ _) _ _ = Ret _ _ =>
      let Hok := fresh "Hok" in
      apply VK_CHECK_RESULT_vk_Ret_inv in H; destruct H as (Hok & H); subst
  | findMemoryType _ _ _ _ = Ret _ _ =>
      let Hfind := fresh "Hfind" in
      pose proof H as Hfind; apply findMemoryType_inv in H; subst
  | memcpy_uint32 _ _ _ _ _ = Ret _ _ =>
      let Hwritable := fresh "Hwritable" in
      apply memcpy_uint32_Ret_inv in H; destruct H as (Hwritable & H); subst
  | _ =>
      unfold getBufferMemoryRequirements, mapMemory, generateSeed, memcpy_uint32,
        vk_void, vk, store, printf, emit, ret in H;
      inversion H; subst; clear H
  end.

Ltac xsteps H :=
  repeat (cbv beta zeta in H;
          lazymatch type of H with
          | bind _ _ _ _ = Ret _ _ =>
              let x := fresh "x" in
              let w1 := fresh "w" in
              let H1 := fresh "Hstep" in
              apply bind_Ret_inv in H; destruct H as (x & w1 & H1 & H); xstep H1
          end);
  xstep H.

(** In a release build the macro around a driver call always lets control
    through. *)
Lemma VK_CHECK_RESULT_vk_release (line : Z) (c : VkCall) (out : option Member) env w :
  NDEBUG env = true ->
  VK_CHECK_RESULT line (vk c out) env w =
  Ret tt {| app := app (after_vk env w c out);
            trace := trace w ++ checked_call_events env line c (vk_result env (vk_calls w));
            vk_calls := S (vk_calls w);
            clock_reads := clock_reads w |}.
Proof.
  intros Hd. rewrite VK_CHECK_RESULT_vk_eq. cbv zeta. rewrite Hd.
  unfold checked_call_events, with_events, after_vk.
  cbn [app trace vk_calls clock_reads].
  destruct (vk_result env (vk_calls w) =? VK_SUCCESS); [reflexivity|].
  now rewrite <- app_assoc.
Qed.

(** ** Seed upload *)

(** The upload, evaluated: it returns when the address vkMapMemory left in
    [data] can take [seedBufferSize] bytes and faults at the memcpy
    otherwise. *)
Lemma runCommandBuffer_upload_eval env w :
  runCommandBuffer_upload env w =
  let o := app w in
  let data := vk_out env (vk_calls w) in
  let mapped :=
    [ EvClockNow (reading env w);
      EvVk (vkMapMemory (device o) (seedBufferMemory o) 0 (seedBufferSize o) 0)
           (Some (vk_result env (vk_calls w))) ] in
  if host_writable env data (seedBufferSize o)
  then Ret tt
         {| app := o;
            trace :=
              trace w ++ mapped ++
              [ EvMemcpy data
                  (bytes_from_newSeed env (to_uint32 (reading env w))
                                      (Z.to_nat (seedBufferSize o)));
                EvVk (vkUnmapMemory (device o) (seedBufferMemory o)) None ];
            vk_calls := S (S (vk_calls w));
            clock_reads := S (clock_reads w) |}
  else Fault {| app := o; trace := trace w ++ mapped;
                vk_calls := S (vk_calls w);
                clock_reads := S (clock_reads w) |}.
Proof.
  unfold runCommandBuffer_upload, bind, generateSeed, this, mapMemory, memcpy_uint32,
    emit, vk_void, reading.
  cbn [app trace vk_calls clock_reads].
  destruct (host_writable env (vk_out env (vk_calls w)) (seedBufferSize (app w)));
    cbn [app trace vk_calls clock_reads]; rewrite <- !app_assoc; reflexivity.
Qed.

Lemma runCommandBuffer_upload_Ret_inv env w x w' :
  runCommandBuffer_upload env w = Ret x w' ->
  host_writable env (vk_out env (vk_calls w)) (seedBufferSize (app w)) = true /\
  app w' = app w /\
  trace w' =
    trace w ++
    [ EvClockNow (reading env w);
      EvVk (vkMapMemory (device (app w)) (seedBufferMemory (app w)) 0
                        (seedBufferSize (app w)) 0)
           (Some (vk_result env (vk_calls w)));
      EvMemcpy (vk_out env (vk_calls w))
               (bytes_from_newSeed env (to_uint32 (reading env w))
                                   (Z.to_nat (seedBufferSize (app w))));
      EvVk (vkUnmapMemory (device (app w)) (seedBufferMemory (app w))) None ].
Proof.
  rewrite runCommandBuffer_upload_eval. cbv zeta.
  destruct (host_writable env (vk_out env (vk_calls w)) (seedBufferSize (app w)));
    [|discriminate].
  intros H. inversion H; subst; clear H. cbn [app trace]. repeat split.
Qed.

(** *** Traces that grow *)





(** *** What each method adds to the trace *)

Ltac forallb_events :=
  unfold checked_call_events;
  repeat match goal with
         | |- context [?a =? ?b] => destruct (a =? b)
         end;
  reflexivity.

Ltac adds_by_steps def :=
  let env := fresh "env" in
  let w := fresh "w" in
  let x := fresh "x" in
  let w' := fresh "w'" in
  let H := fresh "H" in
  intros env w x w' H; unfold def in H; xsteps H;
  cbn [app trace vk_calls clock_reads after_vk];
  rewrite <- ?app_assoc;
  eexists; split; [reflexivity | forallb_events].

Ltac keeps_by_steps def :=
  let env := fresh "env" in
  let w := fresh "w" in
  let x := fresh "x" in
  let w' := fresh "w'" in
  let H := fresh "H" in
  intros env w x w' H; unfold def in H; xsteps H;
  cbn [app after_vk]; reflexivity.

Ltac quiet_by_steps def := split; [adds_by_steps def | keeps_by_steps def].




Lemma createInstance_spec_quiet : quiet_setup createInstance_spec.
Proof. quiet_by_steps createInstance_spec. Qed.

Lemma findPhysicalDevice_spec_quiet : quiet_setup findPhysicalDevice_spec.
Proof. quiet_by_steps findPhysicalDevice_spec. Qed.

Lemma createDevice_spec_quiet : quiet_setup createDevice_spec.
Proof. quiet_by_steps createDevice_spec. Qed.

Lemma createBuffer_spec_quiet : quiet_setup createBuffer_spec.
Proof. quiet_by_steps createBuffer_spec. Qed.

Lemma createComputePipeline_spec_quiet : quiet_setup createComputePipeline_spec.
Proof. quiet_by_steps createComputePipeline_spec. Qed.

Lemma createCommandBuffer_spec_quiet : quiet_setup createCommandBuffer_spec.
Proof. quiet_by_steps createCommandBuffer_spec. Qed.

Lemma runCommandBuffer_rest_spec_no_clock : reads_no_clock runCommandBuffer_rest_spec.
Proof. adds_by_steps runCommandBuffer_rest_spec. Qed.

Lemma saveRenderedImage_spec_no_clock : reads_no_clock saveRenderedImage_spec.
Proof. adds_by_steps saveRenderedImage_spec. Qed.

Lemma cleanup_spec_no_clock : reads_no_clock cleanup_spec.
Proof. adds_by_steps cleanup_spec. Qed.


(** *** The steps of a run that returns *)

Lemma run_Ret_inv (om : Omitted) env w x w' :
  run om env w = Ret x w' ->
  exists w1 w2 w3 w4 w5 w6 w7 w8 w9 w10 w11 w12,
    createInstance om env
      {| app := assign m_bufferSize bufferSize_value (app w); trace := trace w;
         vk_calls := vk_calls w; clock_reads := clock_reads w |} = Ret tt w1 /\
    findPhysicalDevice om env w1 = Ret tt w2 /\
    createDevice om env w2 = Ret tt w3 /\
    createBuffer om env w3 = Ret tt w4 /\
    createSeedBuffer env w4 = Ret tt w5 /\
    createDescriptorSetLayout env w5 = Ret tt w6 /\
    createDescriptorSet env w6 = Ret tt w7 /\
    createComputePipeline om env w7 = Ret tt w8 /\
    createCommandBuffer om env w8 = Ret tt w9 /\
    runCommandBuffer_upload env w9 = Ret tt w10 /\
    runCommandBuffer_rest om env w10 = Ret tt w11 /\
    saveRenderedImage om env w11 = Ret tt w12 /\
    cleanup om env w12 = Ret x w'.
Proof.
  unfold run, runCommandBuffer. intros H.
  apply bind_Ret_inv in H. destruct H as ([] & w0 & H0 & H).
  unfold store in H0. inversion H0; subst; clear H0.
  apply bind_Ret_inv in H. destruct H as ([] & w1 & H1 & H).
  apply bind_Ret_inv in H. destruct H as ([] & w2 & H2 & H).
  apply bind_Ret_inv in H. destruct H as ([] & w3 & H3 & H).
  apply bind_Ret_inv in H. destruct H as ([] & w4 & H4 & H).
  apply bind_Ret_inv in H. destruct H as ([] & w5 & H5 & H).
  apply bind_Ret_inv in H. destruct H as ([] & w6 & H6 & H).
  apply bind_Ret_inv in H. destruct H as ([] & w7 & H7 & H).
  apply bind_Ret_inv in H. destruct H as ([] & w8 & H8 & H).
  apply bind_Ret_inv in H. destruct H as ([] & w9 & H9 & H).
  apply bind_Ret_inv in H. destruct H as ([] & w11 & H10 & H).
  apply bind_Ret_inv in H10. destruct H10 as ([] & w10 & H10 & H11).
  apply bind_Ret_inv in H. destruct H as ([] & w12 & H12 & H).
  exists w1, w2, w3, w4, w5, w6, w7, w8, w9, w10, w11, w12.
  repeat split; assumption.
Qed.




(** * Further properties of the methods in main.cpp *)

(** ** VK_CHECK_RESULT in sequence *)

(** X1: in a build without NDEBUG, a wrapped call that returns a status
    other than VK_SUCCESS ends the process right after the "Fatal" line and
    the assertion report: whatever statements follow the macro are not
    run. *)
Theorem VK_CHECK_RESULT_debug_stops_sequence :
  forall (B : Type) (line : Z) (f : M VkResult) (k : unit -> M B) env w res w1,
    NDEBUG env = false ->
    f env w = Ret res w1 ->
    res <> VK_SUCCESS ->
    bind (VK_CHECK_RESULT line f) k env w =
    Abort (with_events w1 [fatal_line env res line; assert_report env line]).
Proof.
  intros B line f k env w res w1 Hd Hf Hr.
  unfold bind at 1.
  now rewrite (VK_CHECK_RESULT_debug_aborts line f env w res w1 Hd Hf Hr).
Qed.

Lemma VK_CHECK_RESULT_debug_stops_sequence_witness :
  exists w,
    bind (VK_CHECK_RESULT 137 (vk vkCreateCommandPool (Some m_commandPool)))
         (fun _ => createDescriptorSet) env_debug_oom initial_world = Abort w /\
    List.length (trace w) = 3%nat.
Proof.
  eexists. split.
  - apply (VK_CHECK_RESULT_debug_stops_sequence
             unit 137 (vk vkCreateCommandPool (Some m_commandPool))
             (fun _ => createDescriptorSet) env_debug_oom initial_world
             VK_ERROR_OUT_OF_DEVICE_MEMORY _ eq_refl eq_refl).
    discriminate.
  - reflexivity.
Defined.

(** X2: after the wrapped call has returned a status, the macro lets
    execution continue exactly when the status is VK_SUCCESS or the build
    defines NDEBUG; on VK_SUCCESS it adds nothing to what the call did; and
    it never raises an exception. *)
Theorem VK_CHECK_RESULT_continues_iff :
  forall (line : Z) (f : M VkResult) env w res w1,
    f env w = Ret res w1 ->
    ((exists w', VK_CHECK_RESULT line f env w = Ret tt w') <->
     (res = VK_SUCCESS \/ NDEBUG env = true)) /\
    (res = VK_SUCCESS -> VK_CHECK_RESULT line f env w = Ret tt w1) /\
    (forall e w', VK_CHECK_RESULT line f env w <> Throw e w').
Proof.
  intros line f env w res w1 Hf.
  destruct (Z.eq_dec res VK_SUCCESS) as [-> | Hr].
  - pose proof (VK_CHECK_RESULT_success line f env w w1 Hf) as E.
    split; [|split].
    + split; [intros _; now left | intros _; now exists w1].
    + intros _. exact E.
    + intros e w'. rewrite E. discriminate.
  - destruct (NDEBUG env) eqn:Hd.
    + pose proof (VK_CHECK_RESULT_release_continues line f env w res w1 Hd Hf Hr) as E.
      split; [|split].
      * split; [intros _; now right | intros _; eexists; exact E].
      * intros ->. now elim Hr.
      * intros e w'. rewrite E. discriminate.
    + pose proof (VK_CHECK_RESULT_debug_aborts line f env w res w1 Hd Hf Hr) as E.
      split; [|split].
      * split.
        -- intros [w' Hw']. rewrite E in Hw'. discriminate.
        -- intros [-> | Hn]; [now elim Hr | discriminate].
      * intros ->. now elim Hr.
      * intros e w'. rewrite E. discriminate.
Qed.

Lemma VK_CHECK_RESULT_continues_iff_witness :
  (exists w', VK_CHECK_RESULT 121 (vk vkCreateDevice (Some m_device))
                              env_release_oom initial_world = Ret tt w') /\
  ~ (exists w', VK_CHECK_RESULT 121 (vk vkCreateDevice (Some m_device))
                                env_debug_oom initial_world = Ret tt w').
Proof.
  split.
  - apply (proj1 (VK_CHECK_RESULT_continues_iff
                    121 (vk vkCreateDevice (Some m_device)) env_release_oom
                    initial_world _ _ eq_refl)).
    right. reflexivity.
  - intros H.
    apply (proj1 (VK_CHECK_RESULT_continues_iff
                    121 (vk vkCreateDevice (Some m_device)) env_debug_oom
                    initial_world _ _ eq_refl)) in H.
    destruct H as [H | H]; discriminate.
Defined.

(** ** createSeedBuffer (main.cpp:82-102) *)

(** A returned step that takes nothing about findMemoryType for granted:
    the world it returns stays as it is. *)
Ltac astep H :=
  cbv beta zeta in H;
  lazymatch type of H with
  | findMemoryType _ _ _ _ = Ret _ _ => idtac
  | _ => xstep H
  end.

Ltac asteps H :=
  repeat (cbv beta zeta in H;
          lazymatch type of H with
          | bind _ _ _ _ = Ret _ _ =>
              let x := fresh "x" in
              let w1 := fresh "w" in
              let H1 := fresh "Hstep" in
              apply bind_Ret_inv in H; destruct H as (x & w1 & H1 & H); astep H1
          end);
  astep H.

(** X3: whenever createSeedBuffer returns, it has first created a uniform
    buffer of [seedBufferSize] bytes in exclusive sharing mode and queried
    the requirements of the buffer handle the driver wrote (the world
    [seed_buffer_created]), then called findMemoryType with the reported
    type bits and HOST_VISIBLE | HOST_COHERENT, and from the world
    findMemoryType returned it has made exactly two more driver calls:
    vkAllocateMemory of exactly the reported size with the index
    findMemoryType returned, and vkBindBufferMemory of [seedBuffer] to the
    memory handle just written, at offset 0.  createSeedBuffer itself
    assigns only [seedBuffer] and [seedBufferMemory].  Nothing is assumed
    about what findMemoryType does. *)
Theorem createSeedBuffer_calls :
  forall env w w',
    createSeedBuffer env w = Ret tt w' ->
    let created := seed_buffer_created env w in
    let req := vk_memreq env (S (vk_calls w)) in
    exists index w1,
      findMemoryType (mr_memoryTypeBits req)
                     (Z.lor VK_MEMORY_PROPERTY_HOST_VISIBLE_BIT
                            VK_MEMORY_PROPERTY_HOST_COHERENT_BIT) env created
      = Ret index w1 /\
      trace w' =
        trace w1 ++
        checked_call_events env 100
          (vkAllocateMemory (device (app w1))
             {| mai_sType := VK_STRUCTURE_TYPE_MEMORY_ALLOCATE_INFO;
                mai_allocationSize := mr_size req;
                mai_memoryTypeIndex := index |})
          (vk_result env (vk_calls w1)) ++
        checked_call_events env 101
          (vkBindBufferMemory (device (app w1)) (seedBuffer (app w1))
                              (vk_out env (vk_calls w1)) 0)
          (vk_result env (S (vk_calls w1))) /\
      app w' = assign m_seedBufferMemory (vk_out env (vk_calls w1)) (app w1) /\
      vk_calls w' = S (S (vk_calls w1)).
Proof.
  intros env w w' H created req. unfold createSeedBuffer in H. asteps H.
  cbn [app trace vk_calls clock_reads after_vk] in *.
  match goal with
  | Hf : findMemoryType _ _ _ _ = Ret ?i ?w1 |- _ =>
      rewrite <- app_assoc in Hf; exists i, w1; split; [exact Hf|]
  end.
  split; [|split; reflexivity].
  rewrite <- app_assoc. reflexivity.
Qed.

Lemma createSeedBuffer_calls_witness :
  exists w',
    createSeedBuffer env_ok initial_world = Ret tt w' /\
    seedBuffer (app w') = 4096 /\ seedBufferMemory (app w') = 4098.
Proof.
  eexists. split; [vm_compute; reflexivity|].
  destruct (createSeedBuffer_calls env_ok initial_world _ ltac:(vm_compute; reflexivity))
    as (index & w1 & Hfind & _ & Happ & _).
  vm_compute in Hfind. inversion Hfind; subst. rewrite Happ. split; reflexivity.
Defined.

(** X4: in a build without NDEBUG, when vkCreateBuffer fails in
    createSeedBuffer the process ends at line 89: the "Fatal" line and the
    assertion report are the last events, and neither the memory
    requirements query nor any allocation or binding is attempted. *)
Theorem createSeedBuffer_debug_stops_at_create :
  forall env w,
    NDEBUG env = false ->
    vk_result env (vk_calls w) <> VK_SUCCESS ->
    let o := app w in
    let res := vk_result env (vk_calls w) in
    exists w',
      createSeedBuffer env w = Abort w' /\
      trace w' =
        trace w ++
        [ EvVk (vkCreateBuffer (device o)
                  {| bci_sType := VK_STRUCTURE_TYPE_BUFFER_CREATE_INFO;
                     bci_size := seedBufferSize o;
                     bci_usage := VK_BUFFER_USAGE_UNIFORM_BUFFER_BIT;
                     bci_sharingMode := VK_SHARING_MODE_EXCLUSIVE |})
               (Some res);
          fatal_line env res 89;
          assert_report env 89 ] /\
      vk_calls w' = S (vk_calls w) /\
      seedBufferMemory (app w') = seedBufferMemory o.
Proof.
  intros env w Hd Hr o res. apply Z.eqb_neq in Hr.
  unfold createSeedBuffer, bind, this. rewrite VK_CHECK_RESULT_vk_eq. cbv zeta.
  rewrite Hr, Hd. eexists. split; [reflexivity|].
  unfold with_events, after_vk. cbn [app trace vk_calls clock_reads].
  rewrite <- app_assoc. repeat split.
Qed.

Lemma createSeedBuffer_debug_stops_at_create_witness :
  exists w',
    createSeedBuffer env_debug_oom initial_world = Abort w' /\
    List.length (trace w') = 3%nat /\ vk_calls w' = 1%nat.
Proof.
  destruct (createSeedBuffer_debug_stops_at_create env_debug_oom initial_world
              eq_refl ltac:(discriminate))
    as (w' & H & Ht & Hn & _).
  exists w'. split; [exact H|]. rewrite Ht, Hn. split; reflexivity.
Defined.

(** X5: in a build without NDEBUG, a createSeedBuffer that returns has seen
    VK_SUCCESS from all three checked calls and has itself printed
    nothing: before it calls findMemoryType it has added exactly the two
    calls vkCreateBuffer and vkGetBufferMemoryRequirements, and after
    findMemoryType returned exactly the two calls vkAllocateMemory and
    vkBindBufferMemory.  Nothing is assumed about what findMemoryType
    does. *)
Theorem createSeedBuffer_debug_return_is_clean :
  forall env w w',
    NDEBUG env = false ->
    createSeedBuffer env w = Ret tt w' ->
    let o := app w in
    let created := seed_buffer_created env w in
    let req := vk_memreq env (S (vk_calls w)) in
    exists index w1,
      vk_result env (vk_calls w) = VK_SUCCESS /\
      trace created =
        trace w ++
        [ EvVk (vkCreateBuffer (device o)
                  {| bci_sType := VK_STRUCTURE_TYPE_BUFFER_CREATE_INFO;
                     bci_size := seedBufferSize o;
                     bci_usage := VK_BUFFER_USAGE_UNIFORM_BUFFER_BIT;
                     bci_sharingMode := VK_SHARING_MODE_EXCLUSIVE |})
               (Some VK_SUCCESS);
          EvVk (vkGetBufferMemoryRequirements (device o) (vk_out env (vk_calls w))) None ] /\
      findMemoryType (mr_memoryTypeBits req)
                     (Z.lor VK_MEMORY_PROPERTY_HOST_VISIBLE_BIT
                            VK_MEMORY_PROPERTY_HOST_COHERENT_BIT) env created
      = Ret index w1 /\
      vk_result env (vk_calls w1) = VK_SUCCESS /\
      vk_result env (S (vk_calls w1)) = VK_SUCCESS /\
      trace w' =
        trace w1 ++
        [ EvVk (vkAllocateMemory (device (app w1))
                  {| mai_sType := VK_STRUCTURE_TYPE_MEMORY_ALLOCATE_INFO;
                     mai_allocationSize := mr_size req;
                     mai_memoryTypeIndex := index |})
               (Some VK_SUCCESS);
          EvVk (vkBindBufferMemory (device (app w1)) (seedBuffer (app w1))
                                   (vk_out env (vk_calls w1)) 0)
               (Some VK_SUCCESS) ].
Proof.
  intros env w w' Hd H o created req. unfold createSeedBuffer in H. asteps H.
  cbn [app trace vk_calls clock_reads after_vk] in *.
  destruct Hok as [Hok | Hok]; [|congruence].
  destruct Hok0 as [Hok0 | Hok0]; [|congruence].
  destruct Hok1 as [Hok1 | Hok1]; [|congruence].
  match goal with
  | Hf : findMemoryType _ _ _ _ = Ret ?i ?w1 |- _ =>
      rewrite <- app_assoc in Hf; exists i, w1
  end.
  split; [exact Hok|].
  split; [unfold created, seed_buffer_created, checked_call_events;
          cbn [trace]; rewrite Hok; reflexivity|].
  split; [assumption|]. split; [exact Hok0|]. split; [exact Hok1|].
  unfold checked_call_events. rewrite Hok0, Hok1. cbn [Z.eqb VK_SUCCESS].
  rewrite <- app_assoc. reflexivity.
Qed.

Lemma createSeedBuffer_debug_return_is_clean_witness :
  exists w' index w1,
    createSeedBuffer env_ok initial_world = Ret tt w' /\
    findMemoryType 7 6 env_ok (seed_buffer_created env_ok initial_world) = Ret index w1 /\
    List.length (trace w') = (List.length (trace w1) + 2)%nat.
Proof.
  assert (H : createSeedBuffer env_ok initial_world =
              Ret tt (match createSeedBuffer env_ok initial_world with
                      | Ret _ w' => w'
                      | _ => initial_world
                      end)) by (vm_compute; reflexivity).
  destruct (createSeedBuffer_debug_return_is_clean env_ok initial_world _ eq_refl H)
    as (index & w1 & _ & _ & Hfind & _ & _ & Ht).
  eexists; exists index, w1. split; [exact H|]. split; [exact Hfind|].
  rewrite Ht, length_app. reflexivity.
Defined.

(** ** createDescriptorSetLayout and createDescriptorSet (main.cpp:104-176) *)

(** X6: whenever createDescriptorSet returns, it has made exactly three
    driver calls: it created a pool for at most one set holding one storage
    buffer descriptor and one uniform buffer descriptor, allocated one set
    from the pool handle the driver just wrote using the object's
    [descriptorSetLayout], and updated the set handle the driver just wrote
    with the two writes; the only members it has changed are
    [descriptorPool] and [descriptorSet]. *)
Theorem createDescriptorSet_calls :
  forall env w w',
    createDescriptorSet env w = Ret tt w' ->
    let n := vk_calls w in
    let o := app w in
    app w' = assign m_descriptorSet (vk_out env (S n))
                    (assign m_descriptorPool (vk_out env n) o) /\
    trace w' =
      trace w ++
      checked_call_events env 137
        (vkCreateDescriptorPool (device o)
           {| pci_sType := VK_STRUCTURE_TYPE_DESCRIPTOR_POOL_CREATE_INFO;
              pci_maxSets := 1;
              pci_poolSizeCount := 2;
              pci_pPoolSizes :=
                [ {| ps_type := VK_DESCRIPTOR_TYPE_STORAGE_BUFFER; ps_descriptorCount := 1 |};
                  {| ps_type := VK_DESCRIPTOR_TYPE_UNIFORM_BUFFER; ps_descriptorCount := 1 |} ] |})
        (vk_result env n) ++
      checked_call_events env 145
        (vkAllocateDescriptorSets (device o)
           {| sai_sType := VK_STRUCTURE_TYPE_DESCRIPTOR_SET_ALLOCATE_INFO;
              sai_descriptorPool := vk_out env n;
              sai_descriptorSetCount := 1;
              sai_pSetLayouts := [descriptorSetLayout o] |})
        (vk_result env (S n)) ++
      [EvVk (vkUpdateDescriptorSets (device o) (descriptorWrites (app w')) 0) None] /\
    Forall (fun wr => wds_dstSet wr = vk_out env (S n)) (descriptorWrites (app w')) /\
    vk_calls w' = (3 + n)%nat.
Proof.
  intros env w w' H n o. unfold createDescriptorSet in H. xsteps H.
  cbn [app trace vk_calls clock_reads after_vk] in *.
  split; [reflexivity|]. split; [|split; [|reflexivity]].
  - rewrite <- !app_assoc. reflexivity.
  - repeat constructor.
Qed.

Lemma createDescriptorSet_calls_witness :
  exists w',
    createDescriptorSet env_ok initial_world = Ret tt w' /\
    descriptorPool (app w') = 4096 /\ descriptorSet (app w') = 4097 /\
    vk_calls w' = 3%nat.
Proof.
  eexists. split; [vm_compute; reflexivity|].
  destruct (createDescriptorSet_calls env_ok initial_world _ ltac:(vm_compute; reflexivity))
    as (Happ & _ & _ & Hn).
  rewrite Happ, Hn. repeat split.
Defined.

(** X7: whenever createDescriptorSetLayout returns, it has made one driver
    call, creating a layout from the two bindings, and the only member it
    has changed is [descriptorSetLayout], which holds the handle the driver
    wrote; in a build without NDEBUG that call returned VK_SUCCESS and
    nothing was printed. *)
Theorem createDescriptorSetLayout_calls :
  forall env w w',
    createDescriptorSetLayout env w = Ret tt w' ->
    let n := vk_calls w in
    let o := app w in
    let call :=
      vkCreateDescriptorSetLayout (device o)
        {| lci_sType := VK_STRUCTURE_TYPE_DESCRIPTOR_SET_LAYOUT_CREATE_INFO;
           lci_bindingCount := Z.of_nat (List.length layout_bindings);
           lci_pBindings := layout_bindings |} in
    app w' = assign m_descriptorSetLayout (vk_out env n) o /\
    trace w' = trace w ++ checked_call_events env 121 call (vk_result env n) /\
    vk_calls w' = S n /\
    (NDEBUG env = false ->
     vk_result env n = VK_SUCCESS /\
     trace w' = trace w ++ [EvVk call (Some VK_SUCCESS)]).
Proof.
  intros env w w' H n o call. unfold createDescriptorSetLayout in H. xsteps H.
  cbn [app trace vk_calls clock_reads after_vk] in *.
  repeat split.
  - destruct Hok as [Hok | Hok]; [exact Hok | congruence].
  - destruct Hok as [Hok | Hok]; [|congruence].
    unfold checked_call_events. fold n in Hok. fold n. rewrite Hok. reflexivity.
Qed.

Lemma createDescriptorSetLayout_calls_witness :
  exists w',
    createDescriptorSetLayout env_ok initial_world = Ret tt w' /\
    descriptorSetLayout (app w') = 4096 /\ List.length (trace w') = 1%nat.
Proof.
  eexists. split; [vm_compute; reflexivity|].
  destruct (createDescriptorSetLayout_calls env_ok initial_world _
              ltac:(vm_compute; reflexivity))
    as (Happ & _ & _ & Hdebug).
  destruct (Hdebug eq_refl) as [_ Ht].
  rewrite Happ, Ht. split; reflexivity.
Defined.

(** X8: in a build with NDEBUG neither createDescriptorSetLayout nor
    createDescriptorSet can end the process: for every driver behaviour
    both return, and createDescriptorSet still issues
    vkUpdateDescriptorSets as its last call, even after failed pool
    creation or set allocation. *)
Theorem descriptor_setup_release_always_returns :
  forall env w,
    NDEBUG env = true ->
    (exists w', createDescriptorSetLayout env w = Ret tt w') /\
    (exists w' before writes,
        createDescriptorSet env w = Ret tt w' /\
        trace w' =
          trace w ++ before ++
          [EvVk (vkUpdateDescriptorSets (device (app w)) writes 0) None]).
Proof.
  intros env w Hd. split.
  - unfold createDescriptorSetLayout, bind, this.
    rewrite (VK_CHECK_RESULT_vk_release _ _ _ env w Hd). eexists. reflexivity.
  - unfold createDescriptorSet, bind, this.
    rewrite (VK_CHECK_RESULT_vk_release _ _ _ env w Hd).
    rewrite (VK_CHECK_RESULT_vk_release _ _ _ env _ Hd).
    unfold vk_void. cbn [app trace vk_calls clock_reads after_vk].
    eexists; eexists; eexists. split; [reflexivity|].
    cbn [trace].
    match goal with
    | |- ((?t ++ ?e1) ++ ?e2) ++ ?e3 = _ =>
        transitivity (t ++ (e1 ++ e2) ++ e3);
        [ now rewrite <- !app_assoc | reflexivity ]
    end.
Qed.

Lemma descriptor_setup_release_always_returns_witness :
  (exists w', createDescriptorSetLayout env_release_oom initial_world = Ret tt w') /\
  (exists w', createDescriptorSet env_release_oom initial_world = Ret tt w').
Proof.
  destruct (descriptor_setup_release_always_returns env_release_oom initial_world eq_refl)
    as [H1 (w' & _ & _ & H2 & _)].
  split; [exact H1 | exists w'; exact H2].
Defined.

(** X9: the descriptor pool, the two writes and the layout agree: the pool
    sizes list, slot by slot, the descriptor type and count of each layout
    binding, and each write targets the slot of the corresponding layout
    binding with the same descriptor type and count, at array element 0. *)
Theorem descriptor_tables_agree :
  forall env w w' o,
    createDescriptorSet env w = Ret tt w' ->
    (exists dev pool res,
        In (EvVk (vkCreateDescriptorPool dev pool) res) (trace w') /\
        pci_poolSizeCount pool = Z.of_nat (List.length (pci_pPoolSizes pool)) /\
        map (fun ps => (ps_type ps, ps_descriptorCount ps)) (pci_pPoolSizes pool) =
        map (fun b => (descriptorType b, descriptorCount b)) layout_bindings /\
        pci_maxSets pool = 1) /\
    map (fun wr => (wds_dstBinding wr, wds_descriptorType wr, wds_descriptorCount wr))
        (descriptorWrites o) =
    map (fun b => (binding b, descriptorType b, descriptorCount b)) layout_bindings /\
    Forall (fun wr => wds_dstArrayElement wr = 0 /\ bi_offset (wds_pBufferInfo wr) = 0)
           (descriptorWrites o).
Proof.
  intros env w w' o H. unfold createDescriptorSet in H. xsteps H.
  cbn [app trace vk_calls clock_reads after_vk] in *.
  split; [|split; [reflexivity | repeat constructor]].
  eexists; eexists; eexists. split.
  - unfold checked_call_events at 1.
    rewrite !in_app_iff. left. left. right. left. reflexivity.
  - repeat split.
Qed.

Lemma descriptor_tables_agree_witness :
  exists w' dev pool res,
    createDescriptorSet env_ok initial_world = Ret tt w' /\
    In (EvVk (vkCreateDescriptorPool dev pool) res) (trace w') /\
    pci_maxSets pool = 1.
Proof.
  assert (H : createDescriptorSet env_ok initial_world =
              Ret tt (match createDescriptorSet env_ok initial_world with
                      | Ret _ w' => w'
                      | _ => initial_world
                      end)) by (vm_compute; reflexivity).
  destruct (descriptor_tables_agree env_ok initial_world _ ComputeApplication_new H)
    as ((dev & pool & res & Hin & _ & _ & Hmax) & _).
  eexists; exists dev, pool, res. split; [exact H|]. split; assumption.
Defined.

(** ** The three setup methods in the order run() calls them *)

(** X10: when createSeedBuffer, createDescriptorSetLayout and
    createDescriptorSet run in that order (main.cpp:72-74) and return, the
    handles flow between them.  With [w1] the world findMemoryType returned
    inside createSeedBuffer and [n1] its count of driver calls: the memory
    handle is the one written by call [n1], the layout handle the one
    written by call [2 + n1], and the set is allocated with exactly that
    layout handle from the pool written by call [3 + n1]; the final update
    writes into the set written by call [4 + n1], tying slot 0 to [buffer]
    (range [bufferSize]) and slot 1 to [seedBuffer] (range
    [seedBufferSize]) as findMemoryType left those members - and
    [seedBuffer] was, when findMemoryType was called, the handle
    vkCreateBuffer had written.  Nothing is assumed about what
    findMemoryType does. *)
Theorem setup_handles_flow :
  forall env w w',
    (createSeedBuffer ;; createDescriptorSetLayout ;; createDescriptorSet) env w
    = Ret tt w' ->
    let created := seed_buffer_created env w in
    let req := vk_memreq env (S (vk_calls w)) in
    exists index w1,
      seedBuffer (app created) = vk_out env (vk_calls w) /\
      findMemoryType (mr_memoryTypeBits req)
                     (Z.lor VK_MEMORY_PROPERTY_HOST_VISIBLE_BIT
                            VK_MEMORY_PROPERTY_HOST_COHERENT_BIT) env created
      = Ret index w1 /\
      let n1 := vk_calls w1 in
      let o1 := app w1 in
      seedBufferMemory (app w') = vk_out env n1 /\
      descriptorSetLayout (app w') = vk_out env (2 + n1) /\
      descriptorPool (app w') = vk_out env (3 + n1) /\
      descriptorSet (app w') = vk_out env (4 + n1) /\
      seedBuffer (app w') = seedBuffer o1 /\
      buffer (app w') = buffer o1 /\
      In (EvVk (vkAllocateDescriptorSets (device o1)
                  {| sai_sType := VK_STRUCTURE_TYPE_DESCRIPTOR_SET_ALLOCATE_INFO;
                     sai_descriptorPool := vk_out env (3 + n1);
                     sai_descriptorSetCount := 1;
                     sai_pSetLayouts := [vk_out env (2 + n1)] |})
               (Some (vk_result env (4 + n1))))
         (trace w') /\
      exists before,
        trace w' =
          trace w1 ++ before ++
          [EvVk (vkUpdateDescriptorSets (device o1)
                   [ {| wds_sType := VK_STRUCTURE_TYPE_WRITE_DESCRIPTOR_SET;
                        wds_dstSet := vk_out env (4 + n1);
                        wds_dstBinding := 0;
                        wds_dstArrayElement := 0;
                        wds_descriptorType := VK_DESCRIPTOR_TYPE_STORAGE_BUFFER;
                        wds_descriptorCount := 1;
                        wds_pBufferInfo :=
                          {| bi_buffer := buffer o1; bi_offset := 0;
                             bi_range := bufferSize o1 |} |};
                     {| wds_sType := VK_STRUCTURE_TYPE_WRITE_DESCRIPTOR_SET;
                        wds_dstSet := vk_out env (4 + n1);
                        wds_dstBinding := 1;
                        wds_dstArrayElement := 0;
                        wds_descriptorType := VK_DESCRIPTOR_TYPE_UNIFORM_BUFFER;
                        wds_descriptorCount := 1;
                        wds_pBufferInfo :=
                          {| bi_buffer := seedBuffer o1; bi_offset := 0;
                             bi_range := seedBufferSize o1 |} |} ]
                   0) None].
Proof.
  intros env w w' H created req.
  apply bind_Ret_inv in H. destruct H as ([] & wa & H1 & H).
  apply bind_Ret_inv in H. destruct H as ([] & wb & H2 & H3).
  unfold createSeedBuffer in H1. asteps H1.
  unfold createDescriptorSetLayout in H2. xsteps H2.
  unfold createDescriptorSet in H3. xsteps H3.
  cbn [app trace vk_calls clock_reads after_vk] in *.
  match goal with
  | Hf : findMemoryType _ _ _ _ = Ret ?i ?w1 |- _ =>
      rewrite <- app_assoc in Hf; exists i, w1;
      split; [reflexivity|]; split; [exact Hf|]
  end.
  cbv zeta. repeat split.
  - rewrite !in_app_iff. left. right.
    unfold checked_call_events. left. reflexivity.
  - assert (Hshape : forall t l1 l2 l3 l4 l5 l6 : list Event,
               (((((t ++ l1) ++ l2) ++ l3) ++ l4) ++ l5) ++ l6 =
               t ++ (l1 ++ l2 ++ l3 ++ l4 ++ l5) ++ l6)
      by (intros; now rewrite <- !app_assoc).
    rewrite Hshape. eexists. reflexivity.
Qed.

Lemma setup_handles_flow_witness :
  exists w',
    (createSeedBuffer ;; createDescriptorSetLayout ;; createDescriptorSet)
      env_ok initial_world = Ret tt w' /\
    seedBuffer (app w') = 4096 /\
    descriptorSetLayout (app w') = 4100 /\
    descriptorSet (app w') = 4102.
Proof.
  eexists. split; [vm_compute; reflexivity|].
  destruct (setup_handles_flow env_ok initial_world _ ltac:(vm_compute; reflexivity))
    as (index & w1 & _ & Hfind & Hrest).
  vm_compute in Hfind. inversion Hfind; subst. cbv zeta in Hrest.
  destruct Hrest as (_ & H2 & _ & H3 & H1 & _).
  rewrite H1, H2, H3. repeat split.
Defined.

(** ** The seed upload and the status of vkMapMemory (main.cpp:179-183) *)

(** X11: the status returned by vkMapMemory is never looked at: whatever
    it is, the upload neither prints, nor aborts, nor throws.  What happens
    next depends only on the address left in [data]: if [seedBufferSize]
    bytes can be written there, the upload copies that many bytes to it,
    unmaps and returns with the object unchanged; if not, the process
    faults at the memcpy - after the map call and before any unmap. *)
Theorem runCommandBuffer_upload_ignores_map_status :
  forall env w,
    let o := app w in
    let data := vk_out env (vk_calls w) in
    let size := seedBufferSize o in
    let mapped :=
      [ EvClockNow (reading env w);
        EvVk (vkMapMemory (device o) (seedBufferMemory o) 0 size 0)
             (Some (vk_result env (vk_calls w))) ] in
    (host_writable env data size = true ->
     exists w' bytes,
       runCommandBuffer_upload env w = Ret tt w' /\
       app w' = o /\
       List.length bytes = Z.to_nat size /\
       trace w' =
         trace w ++ mapped ++
         [ EvMemcpy data bytes;
           EvVk (vkUnmapMemory (device o) (seedBufferMemory o)) None ]) /\
    (host_writable env data size = false ->
     exists w',
       runCommandBuffer_upload env w = Fault w' /\
       app w' = o /\
       trace w' = trace w ++ mapped) /\
    (forall w', runCommandBuffer_upload env w <> Abort w') /\
    (forall e w', runCommandBuffer_upload env w <> Throw e w').
Proof.
  intros env w o data size mapped. subst o data size mapped.
  rewrite runCommandBuffer_upload_eval. cbv zeta.
  destruct (host_writable env (vk_out env (vk_calls w)) (seedBufferSize (app w))).
  - split; [|split; [|split]].
    + intros _. eexists; eexists. split; [reflexivity|].
      split; [reflexivity|]. split; [apply bytes_from_newSeed_length | reflexivity].
    + discriminate.
    + discriminate.
    + discriminate.
  - split; [|split; [|split]].
    + discriminate.
    + intros _. eexists. repeat split.
    + discriminate.
    + discriminate.
Qed.

Lemma runCommandBuffer_upload_ignores_map_status_witness :
  (exists w',
      vk_result env_map_failed 0 = VK_ERROR_MEMORY_MAP_FAILED /\
      runCommandBuffer_upload env_map_failed initial_world = Ret tt w') /\
  (exists w', runCommandBuffer_upload env_debug_oom initial_world = Fault w').
Proof.
  split.
  - destruct (proj1 (runCommandBuffer_upload_ignores_map_status env_map_failed initial_world)
                    eq_refl) as (w' & bytes & H & _).
    exists w'. split; [reflexivity | exact H].
  - destruct (proj1 (proj2 (runCommandBuffer_upload_ignores_map_status
                              env_debug_oom initial_world)) eq_refl) as (w' & H & _).
    exists w'. exact H.
Defined.

(** ** generateSeed and counts that fit *)

(** X12: the seed is the tick count itself exactly when the count lies in
    [0, 2^32); in every case seed and count differ by a multiple of 2^32,
    and each invocation consumes one clock reading. *)
Theorem generateSeed_exact_iff_fits :
  forall env w s w',
    generateSeed env w = Ret s w' ->
    (s = reading env w <-> 0 <= reading env w < 2 ^ 32) /\
    (reading env w - s) mod 2 ^ 32 = 0 /\
    clock_reads w' = S (clock_reads w).
Proof.
  intros env w s w' H. rewrite generateSeed_returns in H.
  inversion H; subst; clear H. cbn [clock_reads].
  split; [|split; [|reflexivity]].
  - split.
    + intros E. rewrite <- E. apply to_uint32_range.
    + intros Hr. unfold to_uint32. now apply Z.mod_small.
  - unfold to_uint32.
    rewrite Zminus_mod, Z.mod_mod, Z.sub_diag by lia. reflexivity.
Qed.

Lemma generateSeed_exact_iff_fits_witness :
  exists s w',
    generateSeed env_ok initial_world = Ret s w' /\
    s <> reading env_ok initial_world /\ s = 908722176.
Proof.
  eexists; eexists. split; [apply generateSeed_returns|].
  split; [|vm_compute; reflexivity].
  intros E.
  apply (proj1 (proj1 (generateSeed_exact_iff_fits env_ok initial_world _ _
                         (generateSeed_returns _ _)))) in E.
  vm_compute in E. destruct E as [_ E]. discriminate.
Defined.

(** ** Order of the calls in run() (main.cpp:66-80) *)

Ltac shown_by_steps def :=
  let env := fresh "env" in
  let w := fresh "w" in
  let x := fresh "x" in
  let w' := fresh "w'" in
  let H := fresh "H" in
  intros env w x w' H; unfold def in H; xsteps H;
  cbn [app trace vk_calls clock_reads after_vk];
  rewrite <- ?app_assoc;
  eexists; split; [reflexivity | forallb_events].

Lemma createSeedBuffer_shown :
  adds createSeedBuffer
       (fun events =>
          shown_calls events =
          [ ShCreateBuffer VK_BUFFER_USAGE_UNIFORM_BUFFER_BIT;
            ShGetBufferMemoryRequirements; ShAllocateMemory; ShBindBufferMemory ]).
Proof. shown_by_steps createSeedBuffer. Qed.

Lemma createDescriptorSetLayout_shown :
  adds createDescriptorSetLayout
       (fun events => shown_calls events = [ShCreateDescriptorSetLayout 2]).
Proof. shown_by_steps createDescriptorSetLayout. Qed.

Lemma createDescriptorSet_shown :
  adds createDescriptorSet
       (fun events =>
          shown_calls events =
          [ShCreateDescriptorPool; ShAllocateDescriptorSets; ShUpdateDescriptorSets 2]).
Proof. shown_by_steps createDescriptorSet. Qed.

Lemma runCommandBuffer_upload_shown :
  adds runCommandBuffer_upload
       (fun events => shown_calls events = [ShClockNow; ShMapMemory; ShMemcpy; ShUnmapMemory]).
Proof.
  intros env w x w' H. apply runCommandBuffer_upload_Ret_inv in H.
  destruct H as (_ & _ & Ht). eexists. split; [exact Ht | reflexivity].
Qed.

(** X13: let each method that main.cpp omits only add events to the trace
    when it returns, and let [P1] ... [P9] be any properties of the events
    the nine omitted methods add.  Then the trace of a run() that returns
    is, in this order: what createInstance, findPhysicalDevice,
    createDevice and createBuffer added; the calls of createSeedBuffer
    (vkCreateBuffer for a uniform buffer, vkGetBufferMemoryRequirements,
    vkAllocateMemory, vkBindBufferMemory); the one call of
    createDescriptorSetLayout, with two bindings; the calls of
    createDescriptorSet (pool, allocation, one update with two writes);
    what createComputePipeline and createCommandBuffer added; the seed
    upload (clock, map, copy, unmap); and what the rest of
    runCommandBuffer, saveRenderedImage and cleanup added. *)
Theorem run_orders_calls :
  forall (om : Omitted) (P1 P2 P3 P4 P5 P6 P7 P8 P9 : list Event -> Prop),
    adds (createInstance om) P1 ->
    adds (findPhysicalDevice om) P2 ->
    adds (createDevice om) P3 ->
    adds (createBuffer om) P4 ->
    adds (createComputePipeline om) P5 ->
    adds (createCommandBuffer om) P6 ->
    adds (runCommandBuffer_rest om) P7 ->
    adds (saveRenderedImage om) P8 ->
    adds (cleanup om) P9 ->
    forall env w x w',
      run om env w = Ret x w' ->
      exists e1 e2 e3 e4 seedBufferCalls layoutCalls setCalls e5 e6 uploadCalls e7 e8 e9,
        trace w' =
          trace w ++ e1 ++ e2 ++ e3 ++ e4 ++
          seedBufferCalls ++ layoutCalls ++ setCalls ++
          e5 ++ e6 ++ uploadCalls ++ e7 ++ e8 ++ e9 /\
        (P1 e1 /\ P2 e2 /\ P3 e3 /\ P4 e4 /\ P5 e5 /\ P6 e6 /\ P7 e7 /\ P8 e8 /\ P9 e9) /\
        shown_calls seedBufferCalls =
          [ ShCreateBuffer VK_BUFFER_USAGE_UNIFORM_BUFFER_BIT;
            ShGetBufferMemoryRequirements; ShAllocateMemory; ShBindBufferMemory ] /\
        shown_calls layoutCalls = [ShCreateDescriptorSetLayout 2] /\
        shown_calls setCalls =
          [ShCreateDescriptorPool; ShAllocateDescriptorSets; ShUpdateDescriptorSets 2] /\
        shown_calls uploadCalls = [ShClockNow; ShMapMemory; ShMemcpy; ShUnmapMemory].
Proof.
  intros om P1 P2 P3 P4 P5 P6 P7 P8 P9 A1 A2 A3 A4 A5 A6 A7 A8 A9 env w x w' H.
  apply run_Ret_inv in H.
  destruct H as (w1 & w2 & w3 & w4 & w5 & w6 & w7 & w8 & w9 & w10 & w11 & w12 &
                 H1 & H2 & H3 & H4 & H5 & H6 & H7 & H8 & H9 & H10 & H11 & H12 & H13).
  destruct (A1 _ _ _ _ H1) as (e1 & T1 & Q1). cbn [trace] in T1.
  destruct (A2 _ _ _ _ H2) as (e2 & T2 & Q2).
  destruct (A3 _ _ _ _ H3) as (e3 & T3 & Q3).
  destruct (A4 _ _ _ _ H4) as (e4 & T4 & Q4).
  destruct (createSeedBuffer_shown _ _ _ _ H5) as (v1 & T5 & S1).
  destruct (createDescriptorSetLayout_shown _ _ _ _ H6) as (v2 & T6 & S2).
  destruct (createDescriptorSet_shown _ _ _ _ H7) as (v3 & T7 & S3).
  destruct (A5 _ _ _ _ H8) as (e5 & T8 & Q5).
  destruct (A6 _ _ _ _ H9) as (e6 & T9 & Q6).
  destruct (runCommandBuffer_upload_shown _ _ _ _ H10) as (v4 & T10 & S4).
  destruct (A7 _ _ _ _ H11) as (e7 & T11 & Q7).
  destruct (A8 _ _ _ _ H12) as (e8 & T12 & Q8).
  destruct (A9 _ _ _ _ H13) as (e9 & T13 & Q9).
  exists e1, e2, e3, e4, v1, v2, v3, e5, e6, v4, e7, e8, e9.
  split; [|repeat split; assumption].
  rewrite T13, T12, T11, T10, T9, T8, T7, T6, T5, T4, T3, T2, T1.
  rewrite <- !app_assoc. reflexivity.
Qed.

Lemma run_orders_calls_witness :
  exists w' before uploadCalls after,
    run omitted_spec env_ok initial_world = Ret tt w' /\
    trace w' = before ++ uploadCalls ++ after /\
    shown_calls uploadCalls = [ShClockNow; ShMapMemory; ShMemcpy; ShUnmapMemory].
Proof.
  assert (R : exists w', run omitted_spec env_ok initial_world = Ret tt w')
    by (eexists; vm_compute; reflexivity).
  destruct R as [w' R].
  destruct (run_orders_calls omitted_spec _ _ _ _ _ _ _ _ _
              (proj1 createInstance_spec_quiet) (proj1 findPhysicalDevice_spec_quiet)
              (proj1 createDevice_spec_quiet) (proj1 createBuffer_spec_quiet)
              (proj1 createComputePipeline_spec_quiet)
              (proj1 createCommandBuffer_spec_quiet)
              runCommandBuffer_rest_spec_no_clock saveRenderedImage_spec_no_clock
              cleanup_spec_no_clock env_ok initial_world tt w' R)
    as (e1 & e2 & e3 & e4 & v1 & v2 & v3 & e5 & e6 & v4 & e7 & e8 & e9 &
        Ht & _ & _ & _ & _ & S4).
  exists w', (e1 ++ e2 ++ e3 ++ e4 ++ v1 ++ v2 ++ v3 ++ e5 ++ e6), v4, (e7 ++ e8 ++ e9).
  split; [exact R|]. split; [|exact S4].
  rewrite Ht. cbn [trace initial_world]. rewrite <- !app_assoc. reflexivity.
Defined.

(** ** What main makes of each way run() can end (main.cpp:191-200) *)

Lemma main_after_fault (om : Omitted) env w :
  run om env initial_world = Fault w -> main om env = Crashed w.
Proof.
  intros H. unfold main, main_function, bind, try_catch. rewrite H. reflexivity.
Qed.

(** X14: main returns EXIT_SUCCESS if and only if run() returned normally,
    and EXIT_FAILURE if and only if run() threw an exception of the
    std::runtime_error family, in which case the one thing main has added
    to the output is the line with the exception's message; main returns no
    other status. *)
Theorem main_exit_status_iff :
  forall om env,
    (forall w, main om env = Exited EXIT_SUCCESS w <->
               run om env initial_world = Ret tt w) /\
    (forall w, main om env = Exited EXIT_FAILURE w <->
               exists e w0,
                 run om env initial_world = Throw e w0 /\
                 is_a (dynamic_type e) std_runtime_error = true /\
                 w = with_events w0 [EvPrintf "%s\n" [PStr (what e)]]) /\
    (forall status w, main om env = Exited status w ->
                      status = EXIT_SUCCESS \/ status = EXIT_FAILURE).
Proof.
  intros om env. unfold EXIT_SUCCESS, EXIT_FAILURE.
  destruct (run om env initial_world) as [[] w0 | w0 | e w0 | w0] eqn:R.
  - rewrite (main_after_return om env tt w0 R). unfold EXIT_SUCCESS.
    split; [|split].
    + intros w1. split; intros H; congruence.
    + intros w1. split; [intros H; congruence|].
      intros (e & w2 & H & _). discriminate H.
    + intros status w1 H. left. congruence.
  - rewrite (main_after_abort om env w0 R). split; [|split].
    + intros w1. split; intros H; discriminate H.
    + intros w1. split; [intros H; discriminate H|].
      intros (e & w2 & H & _). discriminate H.
    + intros status w1 H. discriminate H.
  - rewrite (main_after_throw om env e w0 R). unfold EXIT_FAILURE.
    destruct (is_a (dynamic_type e) std_runtime_error) eqn:C.
    + split; [|split].
      * intros w1. split; intros H; congruence.
      * intros w1. split.
        -- intros H. exists e, w0. repeat split; congruence.
        -- intros (e' & w2 & H & _ & E). injection H as <- <-. now rewrite E.
      * intros status w1 H. right. congruence.
    + split; [|split].
      * intros w1. split; intros H; discriminate H.
      * intros w1. split; [intros H; discriminate H|].
        intros (e' & w2 & H & C' & _). injection H as <- <-. congruence.
      * intros status w1 H. discriminate H.
  - rewrite (main_after_fault om env w0 R). split; [|split].
    + intros w1. split; intros H; discriminate H.
    + intros w1. split; [intros H; discriminate H|].
      intros (e & w2 & H & _). discriminate H.
    + intros status w1 H. discriminate H.
Qed.

Lemma main_exit_status_iff_witness :
  (exists w, run omitted_spec env_ok initial_world = Ret tt w) /\
  (exists e w0,
      run (omitted_throwing no_device_error) env_ok initial_world = Throw e w0 /\
      is_a (dynamic_type e) std_runtime_error = true).
Proof.
  split.
  - eexists.
    apply (proj1 (proj1 (main_exit_status_iff omitted_spec env_ok) _)).
    vm_compute. reflexivity.
  - destruct (proj1 (proj1 (proj2 (main_exit_status_iff
                                     (omitted_throwing no_device_error) env_ok)) _)
                    ltac:(vm_compute; reflexivity))
      as (e & w0 & H & C & _).
    exists e, w0. split; assumption.
Defined.


